(** * Engineering Document Practice Tool: the session backend, verified

    A shallow embedding of the Python backend (token_tracker.py, config.py,
    prompts.py, claude_client.py, session_store.py, main.py) and the proofs
    of its specified properties.

    Conventions of the embedding.
    - A Python [str] is a Rocq [string], one [ascii] per code point; code
      points above 255 are outside the model.
    - A Python [int] is a [Z]; a Python [float] is a value of the abstract
      type of the class [PyFloat] below.
    - A handler is a function of the world (the process state, the sessions
      directory and the oracle's history) to an outcome and a new world:
      an exception leaves the mutations made before it in place, as in Python. *)

From Stdlib Require Import ZArith NArith String Ascii List Bool Lia.
From Stdlib Require Import DecimalString DecimalPos DecimalN Decimal QArith Qround.
From stdpp Require Import base option list gmap strings fin_maps sorting.

Set Warnings "-register-all".
Close Scope Q_scope.
Open Scope Z_scope.

(** ** Python string primitives *)

Module PyStr.

(** [str.isspace] on one code point below 256: TAB..CR, FS..US, SPACE,
    NEL (0x85) and NBSP (0xA0). *)
Definition is_space (c : ascii) : bool :=
  let n := nat_of_ascii c in
  ((9 <=? n) && (n <=? 13) || (28 <=? n) && (n <=? 32)
   || (n =? 133) || (n =? 160))%nat.

Fixpoint lstrip (s : string) : string :=
  match s with
  | String c s' => if is_space c then lstrip s' else s
  | EmptyString => EmptyString
  end.

Fixpoint rstrip (s : string) : string :=
  match s with
  | String c s' =>
      match rstrip s' with
      | EmptyString => if is_space c then EmptyString else String c EmptyString
      | r => String c r
      end
  | EmptyString => EmptyString
  end.

(** [s.strip()] *)
Definition strip (s : string) : string := rstrip (lstrip s).

(** [s.startswith(p)] *)
Definition startswith (s p : string) : bool := String.prefix p s.

Fixpoint endswith (s p : string) : bool :=
  if String.eqb s p then true
  else match s with
       | String _ s' => endswith s' p
       | EmptyString => false
       end.

Fixpoint drop (n : nat) (s : string) : string :=
  match n, s with
  | S n', String _ s' => drop n' s'
  | _, _ => s
  end.

(** The first occurrence of a non-empty [sep] in [s]: the text before it
    and the text after it. *)
Fixpoint partition (sep s : string) : option (string * string) :=
  if String.prefix sep s then Some (EmptyString, drop (String.length sep) s)
  else match s with
       | String c s' =>
           match partition sep s' with
           | Some (a, b) => Some (String c a, b)
           | None => None
           end
       | EmptyString => None
       end.

(** The last occurrence of a non-empty [sep] in [s]. *)
Fixpoint rpartition (sep s : string) : option (string * string) :=
  match s with
  | String c s' =>
      match rpartition sep s' with
      | Some (a, b) => Some (String c a, b)
      | None =>
          if String.prefix sep s
          then Some (EmptyString, drop (String.length sep) s) else None
      end
  | EmptyString => None
  end.

(** [s.split(sep, 1)] for a non-empty [sep]: one or two pieces. *)
Definition split1 (s sep : string) : list string :=
  match partition sep s with
  | Some (a, b) => [a; b]
  | None => [s]
  end.

(** [s.rsplit(sep, 1)] for a non-empty [sep]. *)
Definition rsplit1 (s sep : string) : list string :=
  match rpartition sep s with
  | Some (a, b) => [a; b]
  | None => [s]
  end.

(** [s.split(c)] for a separator of one character: never empty. *)
Fixpoint split_char (c : ascii) (s : string) : list string :=
  match s with
  | EmptyString => [EmptyString]
  | String x s' =>
      if Ascii.eqb x c then EmptyString :: split_char c s'
      else match split_char c s' with
           | p :: ps => String x p :: ps
           | [] => [String x EmptyString]
           end
  end.

(** [s.split(c)[-1]] *)
Definition last_field (c : ascii) (s : string) : string :=
  List.last (split_char c s) EmptyString.

(** [str(n)] for a natural number. *)
Definition str_of_N (n : N) : string := NilZero.string_of_uint (N.to_uint n).

Fixpoint zeros (k : nat) : string :=
  match k with
  | O => EmptyString
  | S k' => String "0" (zeros k')
  end.

(** [s.zfill(w)] for a string of digits. *)
Definition zfill (w : nat) (s : string) : string :=
  zeros (w - String.length s) +:+ s.

(** [str(n)] *)
Definition str_of_Z (n : Z) : string :=
  if n <? 0 then String "-" (str_of_N (Z.abs_N n)) else str_of_N (Z.abs_N n).

(** [f"{n:03d}"]: the sign counts in the width of three. *)
Definition format_03d (n : Z) : string :=
  if n <? 0 then String "-" (zfill 2 (str_of_N (Z.abs_N n)))
  else zfill 3 (str_of_N (Z.abs_N n)).

(** Every character of [s] satisfies [p]. *)
Fixpoint all_chars (p : ascii -> bool) (s : string) : bool :=
  match s with
  | EmptyString => true
  | String c s' => p c && all_chars p s'
  end.

Definition is_digit (c : ascii) : bool :=
  let n := nat_of_ascii c in ((48 <=? n) && (n <=? 57))%nat.

(** The digit groups of an integer literal: underscores are allowed one at
    a time between digits, and are dropped. *)
Fixpoint ungroup (prev_digit : bool) (s : string) : option string :=
  match s with
  | EmptyString => if prev_digit then Some EmptyString else None
  | String c s' =>
      if is_digit c then String c <$> ungroup true s'
      else if Ascii.eqb c "_" && prev_digit then ungroup false s'
      else None
  end.

(** [int(s)] in base ten: [None] is Python's ValueError.  (The limit that
    recent interpreters put on the number of digits is not modelled.) *)
Definition int_of_str (s : string) : option Z :=
  let t := strip s in
  let '(neg, body) :=
    match t with
    | String c r =>
        if Ascii.eqb c "-" then (true, r)
        else if Ascii.eqb c "+" then (false, r)
        else (false, t)
    | EmptyString => (false, t)
    end in
  d ← ungroup false body ≫= NilZero.uint_of_string;
  Some (if neg : bool then - Z.of_N (N.of_uint d) else Z.of_N (N.of_uint d)).

End PyStr.

(** ** prompts.py: the length guidance of scenario generation *)

(** The dict returned by [get_length_guidance], with its five fixed keys. *)
Record LengthGuidance := {
  lg_request : string;
  lg_document : string;
  lg_data_rows : string;
  lg_key_concepts : string;
  lg_data_points : string;
}.

(** [get_length_guidance(seconds)], the function nested in
    [get_scenario_user_prompt]; it closes over nothing. *)
Definition get_length_guidance (seconds : Z) : LengthGuidance :=
  if seconds <=? 90 then
    {| lg_request := "1 short paragraph (2-3 sentences)";
       lg_document := "2-3 sentences with 1-2 key facts each";
       lg_data_rows := "3-5 rows";
       lg_key_concepts := "1-2";
       lg_data_points := "2-3" |}
  else if seconds <=? 180 then
    {| lg_request := "1 paragraph (4-5 sentences)";
       lg_document := "1 paragraph (4-6 sentences) with 2-3 key facts each";
       lg_data_rows := "5-7 rows";
       lg_key_concepts := "2-3";
       lg_data_points := "3-4" |}
  else if seconds <=? 300 then
    {| lg_request := "1-2 paragraphs";
       lg_document := "1-2 paragraphs with 3-4 key facts each";
       lg_data_rows := "7-10 rows";
       lg_key_concepts := "3-4";
       lg_data_points := "3-4" |}
  else
    {| lg_request := "2-3 paragraphs";
       lg_document := "2 full paragraphs with 4-5 key facts each";
       lg_data_rows := "10-14 rows";
       lg_key_concepts := "3-5";
       lg_data_points := "3-5" |}.

(** ** Exceptions and outcomes *)

(** The exception classes the backend raises or lets through; all of them
    derive from Python's [Exception]. *)
Inductive exn :=
| ValueError (msg : string)
| KeyError (key : string)
| IndexError (msg : string)
| AttributeError (msg : string)
| TypeError (msg : string)
| APIError (msg : string)
| HTTPException (status_code : Z) (detail : string).

(** [str(e)] *)
Definition exn_str (e : exn) : string :=
  match e with
  | ValueError m | IndexError m | AttributeError m | TypeError m | APIError m => m
  | KeyError k => "'" +:+ k +:+ "'"
  | HTTPException c d => PyStr.str_of_Z c +:+ ": " +:+ d
  end.

Inductive result (A : Type) :=
| Return (a : A)
| Raise (e : exn).
Arguments Return {A} a.
Arguments Raise {A} e.

Definition is_raise {A} (r : result A) : bool :=
  match r with Raise _ => true | Return _ => false end.

(** ** Python dicts with string keys, in insertion order *)

Section Dict.
Context {V : Type}.

(** [d.get(k)] *)
Fixpoint dict_get (k : string) (d : list (string * V)) : option V :=
  match d with
  | [] => None
  | (k', v) :: d' => if String.eqb k' k then Some v else dict_get k d'
  end.

(** [d[k] = v]: a key already present keeps its place. *)
Fixpoint dict_set (k : string) (v : V) (d : list (string * V)) : list (string * V) :=
  match d with
  | [] => [(k, v)]
  | (k', v') :: d' =>
      if String.eqb k' k then (k, v) :: d' else (k', v') :: dict_set k v d'
  end.

(** [k in d] *)
Definition dict_mem (k : string) (d : list (string * V)) : bool :=
  match dict_get k d with Some _ => true | None => false end.
End Dict.

(** ** Floats

    The backend computes costs in binary floating point.  The operations it
    uses are the fields of this class; nothing is assumed about them. *)
Class PyFloat := {
  float : Type;
  (** [a / b] on two ints *)
  int_truediv : Z -> Z -> float;
  fmul : float -> float -> float;
  fadd : float -> float -> float;
  (** [round(x, ndigits)] *)
  round_ndigits : float -> Z -> float;
  (** [x >= y] *)
  fge : float -> float -> bool;
  (** [bool(x)] *)
  float_truth : float -> bool;
  (** [f"{x:.2f}"] *)
  format_2f : float -> string;
}.

(** ** JSON values, as [json.loads] builds them *)

Inductive json `{PyFloat} :=
| JNull
| JBool (b : bool)
| JInt (n : Z)
| JFloat (x : float)
| JStr (s : string)
| JList (l : list json)
| JDict (d : list (string * json)).

Inductive decoded `{PyFloat} :=
| Decoded (v : json)
| JSONDecodeError (msg : string).

(** The text functions of the runtime that the backend calls on JSON
    values: [json.loads], [json.dumps(..., indent=2, ensure_ascii=False)]
    and [str] as an f-string applies it. *)
Class PyText `{PyFloat} := {
  json_loads : string -> decoded;
  json_dumps : json -> string;
  py_str : json -> string;
}.

Section Values.
Context `{PyFloat}.

(** [bool(v)] *)
Definition truthy (v : json) : bool :=
  match v with
  | JNull => false
  | JBool b => b
  | JInt n => negb (n =? 0)
  | JFloat x => float_truth x
  | JStr s => negb (String.eqb s "")
  | JList l => match l with [] => false | _ => true end
  | JDict d => match d with [] => false | _ => true end
  end.

(** [v.get(k, dflt)]: only a dict has the method. *)
Definition py_get (v : json) (k : string) (dflt : json) : result json :=
  match v with
  | JDict d => Return (default dflt (dict_get k d))
  | _ => Raise (AttributeError "object has no attribute 'get'")
  end.

Definition is_JStr (s : string) (v : json) : bool :=
  match v with JStr s' => String.eqb s' s | _ => false end.

(** [s in v] for a string [s]: a key of a dict, an element of a list, a
    substring of a string; the other values are not containers. *)
Definition py_contains (s : string) (v : json) : result bool :=
  match v with
  | JDict d => Return (dict_mem s d)
  | JList l => Return (existsb (is_JStr s) l)
  | JStr t =>
      Return (match PyStr.partition s t with Some _ => true | None => false end)
  | _ => Raise (TypeError "argument is not iterable")
  end.
End Values.

(** ** token_tracker.py and config.py *)

Section Tracker.
Context `{PyFloat}.

Record ModelConfig := {
  api_name : string;
  display_name : string;
  input_cost_per_m : float;
  output_cost_per_m : float;
}.

(** One entry of [TokenTracker.calls]. *)
Record CallRecord := {
  cr_label : string;
  cr_input_tokens : Z;
  cr_output_tokens : Z;
}.

Record TokenTracker := {
  total_input_tokens : Z;
  total_output_tokens : Z;
  call_count : Z;
  calls : list CallRecord;
}.

(** [TokenTracker()] *)
Definition TokenTracker_new : TokenTracker :=
  {| total_input_tokens := 0; total_output_tokens := 0;
     call_count := 0; calls := [] |}.

(** [self.track(input_tokens, output_tokens, call_label)]: the tracker
    after the call. *)
Definition track (self : TokenTracker)
    (input_tokens output_tokens : Z) (call_label : string) : TokenTracker :=
  {| total_input_tokens := total_input_tokens self + input_tokens;
     total_output_tokens := total_output_tokens self + output_tokens;
     call_count := call_count self + 1;
     calls := calls self ++
              [{| cr_label := call_label;
                  cr_input_tokens := input_tokens;
                  cr_output_tokens := output_tokens |}] |}.

(** [self.estimate_cost(model)]: the value returned and the tracker the
    method leaves behind. *)
Definition estimate_cost_run (self : TokenTracker) (model : ModelConfig)
  : float * TokenTracker :=
  let input_cost :=
    fmul (int_truediv (total_input_tokens self) 1000000) (input_cost_per_m model) in
  let output_cost :=
    fmul (int_truediv (total_output_tokens self) 1000000) (output_cost_per_m model) in
  (round_ndigits (fadd input_cost output_cost) 4, self).

Definition estimate_cost (self : TokenTracker) (model : ModelConfig) : float :=
  fst (estimate_cost_run self model).

Definition call_to_json (c : CallRecord) : json :=
  JDict [("label", JStr (cr_label c));
         ("input_tokens", JInt (cr_input_tokens c));
         ("output_tokens", JInt (cr_output_tokens c))].

(** [self.to_dict(model)] *)
Definition to_dict (self : TokenTracker) (model : ModelConfig) : json :=
  JDict [("total_input_tokens", JInt (total_input_tokens self));
         ("total_output_tokens", JInt (total_output_tokens self));
         ("call_count", JInt (call_count self));
         ("calls", JList (map call_to_json (calls self)));
         ("estimated_cost", JFloat (estimate_cost self model))].

(** [MODELS]; a float literal [p/q] is written as the quotient of two
    ints, which Python rounds to the same double. *)
Definition MODELS : list (string * ModelConfig) :=
  [("opus", {| api_name := "claude-opus-4-6"; display_name := "Opus 4.6";
               input_cost_per_m := int_truediv 15 1;
               output_cost_per_m := int_truediv 75 1 |});
   ("sonnet", {| api_name := "claude-sonnet-4-5-20250929";
                 display_name := "Sonnet 4.5";
                 input_cost_per_m := int_truediv 3 1;
                 output_cost_per_m := int_truediv 15 1 |});
   ("haiku", {| api_name := "claude-haiku-4-5-20251001";
                display_name := "Haiku 4.5";
                input_cost_per_m := int_truediv 4 5;
                output_cost_per_m := int_truediv 4 1 |})].

Record AppConfig := {
  model_key : string;
  timer_request : Z;
  timer_document : Z;
  timer_predictions : Z;
  timer_data : Z;
  cost_limit : float;
  domain : option string;
  difficulty : string;
}.

(** [AppConfig()] *)
Definition AppConfig_default : AppConfig :=
  {| model_key := "opus"; timer_request := 420; timer_document := 420;
     timer_predictions := 420; timer_data := 420;
     cost_limit := int_truediv 4 1; domain := None;
     difficulty := "intermediate" |}.

(** The property [AppConfig.model]: [MODELS[self.model_key]]. *)
Definition config_model (self : AppConfig) : result ModelConfig :=
  match dict_get (model_key self) MODELS with
  | Some m => Return m
  | None => Raise (KeyError (model_key self))
  end.
End Tracker.

(** The outcome monad of the pure helpers. *)
#[global] Instance result_ret : MRet result := @Return.
#[global] Instance result_bind : MBind result := fun A B f r =>
  match r with
  | Return a => f a
  | Raise e => Raise e
  end.

(** ** prompts.py: the request builders

    The system prompts are constants and the user prompts are built by
    formatting JSON values into text.  The texts play no part in the
    control flow; the builders that index into their arguments can raise
    (a missing key, a value of the wrong type).  They are the fields of
    this class.  [format_scenario_user_prompt] is the f-string template of
    [get_scenario_user_prompt], applied to the three length guides; the
    builder of the quick scenario is defined below. *)
Class Prompts `{PyFloat} := {
  SCENARIO_SYSTEM_PROMPT : string;
  REVIEW_SYSTEM_PROMPT : string;
  IMPROVEMENT_SYSTEM_PROMPT : string;
  CHECKLIST_REVIEW_SYSTEM_PROMPT : string;
  QUICK_SCENARIO_SYSTEM_PROMPT : string;
  QUICK_GRADE_SYSTEM_PROMPT : string;
  format_scenario_user_prompt :
    option string -> string ->
    LengthGuidance -> LengthGuidance -> LengthGuidance -> Z -> Z -> Z -> string;
  get_review_user_prompt : json -> list (string * string) -> result string;
  get_improvement_user_prompt : list json -> json -> result string;
  get_checklist_review_prompt : json -> list json -> json -> result string;
  get_quick_grade_user_prompt : json -> json -> json -> json -> string -> result string;
}.

Section Backend.
Context `{PyText} `{!Prompts}.

(** [get_quick_scenario_user_prompt(duration_mode, domain)] *)
Definition get_quick_scenario_user_prompt (duration_mode : string)
    (domain : option string) : string :=
  let structure :=
    if String.eqb duration_mode "2.5min" then
      "2 documents with 2-3 bullets each (5 total bullets)"
    else if String.eqb duration_mode "5min" then
      "3 documents with 3-4 bullets each (9-10 total bullets)"
    else "3 documents with 5 bullets each (15 total bullets)" in
  let domain_instruction :=
    match domain with
    | Some d =>
        if negb (String.eqb d "") && negb (String.eqb d "random")
        then "Domain: " +:+ d
        else "Domain: Choose randomly from mechanical, electrical, civil, chemical, or environmental engineering"
    | None =>
        "Domain: Choose randomly from mechanical, electrical, civil, chemical, or environmental engineering"
    end in
  domain_instruction +:+ "

Generate a quick practice scenario with:
- " +:+ structure +:+ "
- A focused question that requires synthesizing the bullet points
- Real engineering content with specific values and parameters

The scenario should be completable in the time allotted if the trainee reads efficiently and writes concisely.".

(** [get_scenario_user_prompt(domain, difficulty, timer_request,
    timer_document, timer_data)] *)
Definition get_scenario_user_prompt (domain : option string) (difficulty : string)
    (timer_request timer_document timer_data : Z) : string :=
  let request_guide := get_length_guidance timer_request in
  let doc_guide := get_length_guidance timer_document in
  let data_guide := get_length_guidance timer_data in
  format_scenario_user_prompt domain difficulty
    request_guide doc_guide data_guide timer_request timer_document timer_data.

(** *** The world *)

(** One call of [client.messages.create]. *)
Record Request := {
  rq_model : string;
  rq_max_tokens : Z;
  rq_system : string;
  rq_user : string;
}.

(** What the oracle does with a request: it fails, or it answers with
    its token usage and the text blocks of its message. *)
Inductive Reply :=
| ReplyError (e : exn)
| ReplyMessage (input_tokens output_tokens : Z) (content : list string).

(** An entry of [active_sessions]; [s_tracker] is a reference to the
    session's [TokenTracker] object. *)
Record Session := {
  s_session_id : string;
  s_timestamp : string;
  s_model_used : string;
  s_domain : string;
  s_difficulty : string;
  s_scenario : json;
  s_user_responses : list (string * string);
  s_time_used : list (string * Z);
  s_tracker : nat;
}.

(** An entry of [active_quick_sessions]. *)
Record QuickSession := {
  q_session_id : string;
  q_timestamp : string;
  q_duration_mode : string;
  q_scenario : json;
  q_tracker : nat;
}.

Record World := {
  (** [os.environ.get("ANTHROPIC_API_KEY", "")] *)
  api_key : string;
  app_config : AppConfig;
  (** [datetime.now()], as [strftime("%Y-%m-%d")] and [isoformat()] *)
  today : string;
  now_isoformat : string;
  (** the [TokenTracker] objects, by reference *)
  trackers : gmap nat TokenTracker;
  active_sessions : gmap string Session;
  active_quick_sessions : gmap string QuickSession;
  (** the files of [SESSIONS_DIR] and of [QUICK_SESSIONS_DIR]: name to text *)
  sessions_dir : gmap string string;
  quick_sessions_dir : gmap string string;
  (** the oracle: its answer to a request, given the requests before it,
      and the requests placed so far, oldest first *)
  oracle : list Request -> Request -> Reply;
  oracle_requests : list Request;
}.

Definition set_trackers (f : gmap nat TokenTracker -> gmap nat TokenTracker)
    (w : World) : World :=
  {| api_key := api_key w; app_config := app_config w; today := today w;
     now_isoformat := now_isoformat w; trackers := f (trackers w);
     active_sessions := active_sessions w;
     active_quick_sessions := active_quick_sessions w;
     sessions_dir := sessions_dir w;
     quick_sessions_dir := quick_sessions_dir w;
     oracle := oracle w; oracle_requests := oracle_requests w |}.

Definition set_active_sessions (f : gmap string Session -> gmap string Session)
    (w : World) : World :=
  {| api_key := api_key w; app_config := app_config w; today := today w;
     now_isoformat := now_isoformat w; trackers := trackers w;
     active_sessions := f (active_sessions w);
     active_quick_sessions := active_quick_sessions w;
     sessions_dir := sessions_dir w;
     quick_sessions_dir := quick_sessions_dir w;
     oracle := oracle w; oracle_requests := oracle_requests w |}.

Definition set_active_quick_sessions
    (f : gmap string QuickSession -> gmap string QuickSession)
    (w : World) : World :=
  {| api_key := api_key w; app_config := app_config w; today := today w;
     now_isoformat := now_isoformat w; trackers := trackers w;
     active_sessions := active_sessions w;
     active_quick_sessions := f (active_quick_sessions w);
     sessions_dir := sessions_dir w;
     quick_sessions_dir := quick_sessions_dir w;
     oracle := oracle w; oracle_requests := oracle_requests w |}.

Definition set_sessions_dir (f : gmap string string -> gmap string string)
    (w : World) : World :=
  {| api_key := api_key w; app_config := app_config w; today := today w;
     now_isoformat := now_isoformat w; trackers := trackers w;
     active_sessions := active_sessions w;
     active_quick_sessions := active_quick_sessions w;
     sessions_dir := f (sessions_dir w);
     quick_sessions_dir := quick_sessions_dir w;
     oracle := oracle w; oracle_requests := oracle_requests w |}.

Definition set_quick_sessions_dir (f : gmap string string -> gmap string string)
    (w : World) : World :=
  {| api_key := api_key w; app_config := app_config w; today := today w;
     now_isoformat := now_isoformat w; trackers := trackers w;
     active_sessions := active_sessions w;
     active_quick_sessions := active_quick_sessions w;
     sessions_dir := sessions_dir w;
     quick_sessions_dir := f (quick_sessions_dir w);
     oracle := oracle w; oracle_requests := oracle_requests w |}.

Definition set_oracle_requests (f : list Request -> list Request)
    (w : World) : World :=
  {| api_key := api_key w; app_config := app_config w; today := today w;
     now_isoformat := now_isoformat w; trackers := trackers w;
     active_sessions := active_sessions w;
     active_quick_sessions := active_quick_sessions w;
     sessions_dir := sessions_dir w;
     quick_sessions_dir := quick_sessions_dir w;
     oracle := oracle w; oracle_requests := f (oracle_requests w) |}.

(** *** The monad of the handlers: state and exceptions *)

Definition M (A : Type) : Type := World -> result A * World.

#[global] Instance M_ret : MRet M := fun A a w => (Return a, w).
#[global] Instance M_bind : MBind M := fun A B f m w =>
  match m w with
  | (Return a, w') => f a w'
  | (Raise e, w') => (Raise e, w')
  end.

Definition raise {A} (e : exn) : M A := fun w => (Raise e, w).

(** A pure computation that may raise. *)
Definition lift {A} (r : result A) : M A := fun w => (r, w).

Definition gets {A} (f : World -> A) : M A := fun w => (Return (f w), w).

Definition modify (f : World -> World) : M unit := fun w => (Return tt, f w).

(** [try: body  except Exception as e: handler(e)] *)
Definition try_except {A} (body : M A) (handler : exn -> M A) : M A := fun w =>
  match body w with
  | (Return a, w') => (Return a, w')
  | (Raise e, w') => handler e w'
  end.
(** [l[i]] *)
Definition py_index {A} (l : list A) (i : nat) : result A :=
  match l !! i with
  | Some x => Return x
  | None => Raise (IndexError "list index out of range")
  end.

(** [v[k]] for a string key. *)
Definition py_item (v : json) (k : string) : result json :=
  match v with
  | JDict d =>
      match dict_get k d with
      | Some x => Return x
      | None => Raise (KeyError k)
      end
  | _ => Raise (TypeError "indices must be integers or the object is not subscriptable")
  end.

(** *** session_store.py *)

(** [Path.stem]: the name without its last suffix. *)
Definition stem (name : string) : string :=
  match PyStr.rpartition "." name with
  | Some (a, b) => if String.eqb a "" || String.eqb b "" then name else a
  | None => name
  end.

(** [dir.glob(prefix + "*.json")] for a prefix without wildcards, in the
    order the directory yields its entries. *)
Definition glob_json (prefix : string) (dir : gmap string string)
  : list (string * string) :=
  List.filter
    (fun f => PyStr.startswith (fst f) prefix && PyStr.endswith (fst f) ".json"
              && (String.length prefix + 5 <=? String.length (fst f))%nat)
    (map_to_list dir).

Fixpoint insert_desc (f : string * string) (l : list (string * string))
  : list (string * string) :=
  match l with
  | [] => [f]
  | g :: l' => if String.leb (fst g) (fst f) then f :: l else g :: insert_desc f l'
  end.

(** [sorted(paths, reverse=True)]: the paths of one directory compare by
    their names. *)
Definition sorted_reverse (l : list (string * string)) : list (string * string) :=
  foldr insert_desc [] l.

(** [max(counters)] *)
Definition py_max (l : list Z) : result Z :=
  match l with
  | [] => Raise (ValueError "max() arg is an empty sequence")
  | x :: l' => Return (fold_left Z.max l' x)
  end.

(** [int(name.split("_")[-1])] *)
Definition counter_of (name : string) : result Z :=
  match PyStr.int_of_str (PyStr.last_field "_" name) with
  | Some n => Return n
  | None => Raise (ValueError "invalid literal for int() with base 10")
  end.

(** The body shared by [generate_session_id] and
    [generate_quick_session_id]: [prefix] is [today] or ["quick_" + today]. *)
Definition next_session_id (prefix : string) (dir : gmap string string)
  : result string :=
  let existing := map (fun f => stem (fst f)) (glob_json (prefix +:+ "_") dir) in
  next_counter ←
    match existing with
    | [] => Return 1
    | _ => counters ← mapM counter_of existing;
           m ← py_max counters;
           Return (m + 1)
    end;
  Return (prefix +:+ "_" +:+ PyStr.format_03d next_counter).

Definition generate_session_id : M string := fun w =>
  (next_session_id (today w) (sessions_dir w), w).

Definition generate_quick_session_id : M string := fun w =>
  (next_session_id ("quick_" +:+ today w) (quick_sessions_dir w), w).

(** [save_session(session_id, data)]: the file is opened for writing and
    the record dumped into it. *)
Definition save_session (session_id : string) (data : json) : M string :=
  let filepath := session_id +:+ ".json" in
  modify (set_sessions_dir <[filepath := json_dumps data]>);;
  mret filepath.

Definition save_quick_session (session_id : string) (data : json) : M string :=
  let filepath := session_id +:+ ".json" in
  modify (set_quick_sessions_dir <[filepath := json_dumps data]>);;
  mret filepath.

(** [load_session(session_id)]; [json.load] lets its decode error through. *)
Definition load_session (session_id : string) : M (option json) := fun w =>
  match sessions_dir w !! (session_id +:+ ".json") with
  | None => (Return None, w)
  | Some text =>
      match json_loads text with
      | Decoded v => (Return (Some v), w)
      | JSONDecodeError msg => (Raise (ValueError msg), w)
      end
  end.

(** The dict appended by [list_sessions] for one decoded file. *)
Definition session_summary (name : string) (data : json) : result json :=
  timestamp ← py_get data "timestamp" (JStr "");
  domain ← py_get data "domain" (JStr "unknown");
  difficulty ← py_get data "difficulty" (JStr "unknown");
  model_used ← py_get data "model_used" (JStr "unknown");
  feedback ← py_get data "feedback" (JDict []);
  overall ← py_get feedback "overall" (JDict []);
  overall_score ← py_get overall "score" JNull;
  token_usage ← py_get data "token_usage" (JDict []);
  estimated_cost ← py_get token_usage "estimated_cost" JNull;
  Return (JDict [("session_id", JStr (stem name));
                 ("timestamp", timestamp);
                 ("domain", domain);
                 ("difficulty", difficulty);
                 ("model_used", model_used);
                 ("overall_score", overall_score);
                 ("estimated_cost", estimated_cost)]).

(** The [for] loop of [list_sessions]: [except (json.JSONDecodeError,
    KeyError): continue], any other exception leaves the function. *)
Fixpoint list_sessions_loop (files : list (string * string)) (sessions : list json)
  : result (list json) :=
  match files with
  | [] => Return sessions
  | (name, text) :: rest =>
      match json_loads text with
      | JSONDecodeError _ => list_sessions_loop rest sessions
      | Decoded data =>
          match session_summary name data with
          | Return entry => list_sessions_loop rest (sessions ++ [entry])
          | Raise (KeyError _) => list_sessions_loop rest sessions
          | Raise e => Raise e
          end
      end
  end.

Definition list_sessions_in (dir : gmap string string) : result (list json) :=
  list_sessions_loop (sorted_reverse (glob_json "" dir)) [].

Definition list_sessions : M (list json) := fun w =>
  (list_sessions_in (sessions_dir w), w).

(** The body of the [try] of [get_past_summaries] after [json.load]:
    the summary to append, if the record has a completed review. *)
Definition past_summary (name : string) (data : json) : result (option json) :=
  feedback ← py_get data "feedback" (JDict []);
  overall ← py_get feedback "overall" (JDict []);
  if truthy overall then
    overall_score ← py_get overall "score" JNull;
    summary ← py_get overall "summary" (JStr "");
    top_improvement ← py_get overall "top_improvement" (JStr "");
    Return (Some (JDict [("session_id", JStr (stem name));
                         ("overall_score", overall_score);
                         ("summary", summary);
                         ("top_improvement", top_improvement)]))
  else Return None.

Fixpoint get_past_summaries_loop (limit : Z) (files : list (string * string))
    (summaries : list json) : result (list json) :=
  match files with
  | [] => Return summaries
  | (name, text) :: rest =>
      if Z.of_nat (length summaries) >=? limit then Return summaries
      else
        match json_loads text with
        | JSONDecodeError _ => get_past_summaries_loop limit rest summaries
        | Decoded data =>
            match past_summary name data with
            | Return (Some entry) =>
                get_past_summaries_loop limit rest (summaries ++ [entry])
            | Return None => get_past_summaries_loop limit rest summaries
            | Raise (KeyError _) => get_past_summaries_loop limit rest summaries
            | Raise e => Raise e
            end
        end
  end.

Definition get_past_summaries (limit : Z) : M (list json) := fun w =>
  (get_past_summaries_loop limit (sorted_reverse (glob_json "" (sessions_dir w))) [],
   w).
(** *** claude_client.py: the gateway *)

Definition NL : string := String (ascii_of_nat 10) EmptyString.

(** The object a reference denotes. *)
Definition tracker_at (heap : gmap nat TokenTracker) (r : nat) : TokenTracker :=
  default TokenTracker_new (heap !! r).

(** [tracker.track(...)] through a reference. *)
Definition tracker_track (r : nat) (input_tokens output_tokens : Z)
    (call_label : string) : M unit :=
  modify (set_trackers (fun heap =>
    <[r := track (tracker_at heap r) input_tokens output_tokens call_label]> heap)).

Definition api_key_message : string :=
  "ANTHROPIC_API_KEY not set. Create a .env file with:
ANTHROPIC_API_KEY=sk-ant-...".

(** [_get_client()]: [get_api_key] raises when the key is not set. *)
Definition _get_client : M unit := fun w =>
  if String.eqb (api_key w) ""
  then (Raise (ValueError api_key_message), w)
  else (Return tt, w).

(** [client.messages.create(...)]: the request is placed, then the
    oracle answers or fails. *)
Definition messages_create (rq : Request) : M (Z * Z * list string) := fun w =>
  let w' := set_oracle_requests (fun l => l ++ [rq]) w in
  match oracle w (oracle_requests w) rq with
  | ReplyError e => (Raise e, w')
  | ReplyMessage i o content => (Return (i, o, content), w')
  end.

Definition cost_limit_message (current_cost limit : float) : string :=
  "Cost limit reached: $" +:+ format_2f current_cost +:+ " >= $"
  +:+ format_2f limit +:+ ". Increase cost_limit in settings to continue.".

(** The dict returned when the text is not JSON. *)
Definition parse_failure (raw_text msg : string) : json :=
  JDict [("error", JStr "Failed to parse JSON response");
         ("raw_response", JStr raw_text);
         ("parse_error", JStr msg)].

Definition _call_claude (system_prompt user_prompt : string) (tracker : nat)
    (call_label : string) (max_tokens : Z) : M json :=
  _get_client;;
  cfg ← gets app_config;
  model ← lift (config_model cfg);
  current_cost ← gets (fun w => estimate_cost (tracker_at (trackers w) tracker) model);
  if fge current_cost (cost_limit cfg) then
    raise (ValueError (cost_limit_message current_cost (cost_limit cfg)))
  else
    '(input_tokens, output_tokens, content) ←
      messages_create {| rq_model := api_name model; rq_max_tokens := max_tokens;
                         rq_system := system_prompt; rq_user := user_prompt |};
    tracker_track tracker input_tokens output_tokens call_label;;
    raw_text ← lift (py_index content 0);
    let cleaned := PyStr.strip raw_text in
    cleaned ←
      (if PyStr.startswith cleaned "```" then
         cleaned ← lift (py_index (PyStr.split1 cleaned NL) 1);
         cleaned ← lift (py_index (PyStr.rsplit1 cleaned "```") 0);
         mret (PyStr.strip cleaned)
       else mret cleaned);
    match json_loads cleaned with
    | Decoded v => mret v
    | JSONDecodeError msg => mret (parse_failure raw_text msg)
    end.

(** *** claude_client.py: the six operations

    The user prompt is an argument of the call, so it is built before
    [_call_claude] is entered. *)

Definition generate_scenario (tracker : nat) : M json :=
  cfg ← gets app_config;
  _call_claude SCENARIO_SYSTEM_PROMPT
    (get_scenario_user_prompt (domain cfg) (difficulty cfg)
       (timer_request cfg) (timer_document cfg) (timer_data cfg))
    tracker "scenario_generation" 8192.

Definition generate_review (scenario : json) (user_responses : list (string * string))
    (tracker : nat) : M json :=
  user_prompt ← lift (get_review_user_prompt scenario user_responses);
  _call_claude REVIEW_SYSTEM_PROMPT user_prompt tracker "review" 4096.

Definition generate_improvement_comparison (past_summaries : list json)
    (current_feedback : json) (tracker : nat) : M json :=
  user_prompt ← lift (get_improvement_user_prompt past_summaries current_feedback);
  _call_claude IMPROVEMENT_SYSTEM_PROMPT user_prompt tracker
    "improvement_comparison" 1024.

Definition review_checklist (document : json) (checklist : list json)
    (rubric_key_concepts : json) (tracker : nat) : M json :=
  user_prompt ←
    lift (get_checklist_review_prompt document checklist rubric_key_concepts);
  _call_claude CHECKLIST_REVIEW_SYSTEM_PROMPT user_prompt tracker
    "checklist_review" 1024.

Definition generate_quick_scenario (duration_mode : string) (domain : option string)
    (tracker : nat) : M json :=
  _call_claude QUICK_SCENARIO_SYSTEM_PROMPT
    (get_quick_scenario_user_prompt duration_mode domain)
    tracker "quick_scenario" 2048.

Definition grade_quick_response (question documents key_facts ideal_response : json)
    (user_response : string) (tracker : nat) : M json :=
  user_prompt ←
    lift (get_quick_grade_user_prompt question documents key_facts
            ideal_response user_response);
  _call_claude QUICK_GRADE_SYSTEM_PROMPT user_prompt tracker "quick_grade" 1024.

(** *** main.py: the handlers *)

Record SubmitNotesRequest := {
  sn_step : string;
  sn_content : string;
  sn_time_used : Z;
}.

Record QuickSubmitRequest := {
  qs_response : string;
  qs_time_used : Z;
  qs_device : string;
}.

Definition valid_steps : list string :=
  ["background_notes"; "deliverable_summary";
   "doc1_notes"; "doc2_notes"; "doc3_notes";
   "data_predictions"; "data_notes"].

(** [step in valid_steps] *)
Definition is_valid_step (step : string) : bool :=
  existsb (String.eqb step) valid_steps.

Definition invalid_step_detail (step : string) : string :=
  "Invalid step '" +:+ step +:+ "'. Must be one of: ['background_notes', 'deliverable_summary', 'doc1_notes', 'doc2_notes', 'doc3_notes', 'data_predictions', 'data_notes']".

Definition with_response (session : Session) (step content : string) : Session :=
  {| s_session_id := s_session_id session; s_timestamp := s_timestamp session;
     s_model_used := s_model_used session; s_domain := s_domain session;
     s_difficulty := s_difficulty session; s_scenario := s_scenario session;
     s_user_responses := dict_set step content (s_user_responses session);
     s_time_used := s_time_used session; s_tracker := s_tracker session |}.

Definition with_time_used (session : Session) (step : string) (t : Z) : Session :=
  {| s_session_id := s_session_id session; s_timestamp := s_timestamp session;
     s_model_used := s_model_used session; s_domain := s_domain session;
     s_difficulty := s_difficulty session; s_scenario := s_scenario session;
     s_user_responses := s_user_responses session;
     s_time_used := dict_set step t (s_time_used session);
     s_tracker := s_tracker session |}.

(** [POST /api/session/{session_id}/submit]; the two assignments mutate
    the session object held by the table. *)
Definition submit_notes (session_id : string) (request : SubmitNotesRequest)
  : M json :=
  session ← gets (fun w => active_sessions w !! session_id);
  match session with
  | None => raise (HTTPException 404 "Session not found")
  | Some session =>
      if negb (is_valid_step (sn_step request)) then
        raise (HTTPException 400 (invalid_step_detail (sn_step request)))
      else
        let session := with_response session (sn_step request) (sn_content request) in
        modify (set_active_sessions <[session_id := session]>);;
        let session := with_time_used session (sn_step request) (sn_time_used request) in
        modify (set_active_sessions <[session_id := session]>);;
        mret (JDict [("status", JStr "saved"); ("step", JStr (sn_step request))])
  end.

Definition responses_json (d : list (string * string)) : json :=
  JDict (map (fun kv => (fst kv, JStr (snd kv))) d).

Definition times_json (d : list (string * Z)) : json :=
  JDict (map (fun kv => (fst kv, JInt (snd kv))) d).

(** The record written by [review_session]. *)
Definition session_record (session : Session) (feedback improvement token_usage : json)
  : json :=
  JDict [("session_id", JStr (s_session_id session));
         ("timestamp", JStr (s_timestamp session));
         ("model_used", JStr (s_model_used session));
         ("domain", JStr (s_domain session));
         ("difficulty", JStr (s_difficulty session));
         ("scenario", s_scenario session);
         ("user_responses", responses_json (s_user_responses session));
         ("time_used", times_json (s_time_used session));
         ("feedback", feedback);
         ("improvement", improvement);
         ("token_usage", token_usage)].

(** [tracker.to_dict(app_config.model)] *)
Definition token_usage_of (tracker : nat) : M json :=
  cfg ← gets app_config;
  model ← lift (config_model cfg);
  gets (fun w => to_dict (tracker_at (trackers w) tracker) model).

(** [del table[key]] *)
Definition del_active_session (session_id : string) : M unit := fun w =>
  match active_sessions w !! session_id with
  | Some _ => (Return tt, set_active_sessions (delete session_id) w)
  | None => (Raise (KeyError session_id), w)
  end.

Definition del_active_quick_session (session_id : string) : M unit := fun w =>
  match active_quick_sessions w !! session_id with
  | Some _ => (Return tt, set_active_quick_sessions (delete session_id) w)
  | None => (Raise (KeyError session_id), w)
  end.

(** [POST /api/session/{session_id}/review] *)
Definition review_session (session_id : string) : M json :=
  session ← gets (fun w => active_sessions w !! session_id);
  match session with
  | None => raise (HTTPException 404 "Session not found")
  | Some session =>
      let tracker := s_tracker session in
      feedback ←
        try_except
          (generate_review (s_scenario session) (s_user_responses session) tracker)
          (fun e => raise (HTTPException 500 ("Review failed: " +:+ exn_str e)));
      past_summaries ← get_past_summaries 5;
      compare ←
        match past_summaries with
        | [] => mret false
        | _ => has_error ← lift (py_contains "error" feedback);
               mret (negb has_error)
        end;
      improvement ←
        (if compare : bool then
           try_except
             (generate_improvement_comparison past_summaries feedback tracker)
             (fun _ => mret JNull)
         else mret JNull);
      token_usage ← token_usage_of tracker;
      let session_data := session_record session feedback improvement token_usage in
      save_session session_id session_data;;
      del_active_session session_id;;
      token_usage ← token_usage_of tracker;
      mret (JDict [("feedback", feedback);
                   ("improvement", improvement);
                   ("token_usage", token_usage)])
  end.

(** The record written by [submit_quick_session]. *)
Definition quick_record (session_id : string) (session : QuickSession)
    (question documents key_facts ideal_response : json)
    (request : QuickSubmitRequest) (feedback token_usage : json) : json :=
  JDict [("session_id", JStr session_id);
         ("timestamp", JStr (q_timestamp session));
         ("duration_mode", JStr (q_duration_mode session));
         ("question", question);
         ("documents", documents);
         ("key_facts", key_facts);
         ("ideal_response", ideal_response);
         ("user_response", JStr (qs_response request));
         ("time_used", JInt (qs_time_used request));
         ("device", JStr (qs_device request));
         ("feedback", feedback);
         ("token_usage", token_usage)].

(** The body of the [try] of [submit_quick_session]: the arguments of
    the call are read from the scenario, then the call is made. *)
Definition grade_quick_session (session : QuickSession) (request : QuickSubmitRequest)
  : M json :=
  let tracker := q_tracker session in
  let scenario := q_scenario session in
  question ← lift (py_item scenario "question");
  documents ← lift (py_item scenario "documents");
  key_facts ← lift (py_item scenario "key_facts");
  ideal_response ← lift (py_item scenario "ideal_response");
  grade_quick_response question documents key_facts ideal_response
    (qs_response request) tracker.

(** [POST /api/quick/{session_id}/submit] *)
Definition submit_quick_session (session_id : string) (request : QuickSubmitRequest)
  : M json :=
  session ← gets (fun w => active_quick_sessions w !! session_id);
  match session with
  | None => raise (HTTPException 404 "Session not found")
  | Some session =>
      let tracker := q_tracker session in
      let scenario := q_scenario session in
      feedback ←
        try_except
          (grade_quick_session session request)
          (fun e => raise (HTTPException 500 ("Grading failed: " +:+ exn_str e)));
      has_error ← lift (py_contains "error" feedback);
      if has_error : bool then
        error ← lift (py_get feedback "error" JNull);
        raise (HTTPException 500 ("Grading parse error: " +:+ py_str error))
      else
        question ← lift (py_item scenario "question");
        documents ← lift (py_item scenario "documents");
        key_facts ← lift (py_item scenario "key_facts");
        ideal_response ← lift (py_item scenario "ideal_response");
        token_usage ← token_usage_of tracker;
        let session_data :=
          quick_record session_id session question documents key_facts
            ideal_response request feedback token_usage in
        save_quick_session session_id session_data;;
        del_active_quick_session session_id;;
        mret (JDict [("feedback", feedback)])
  end.
End Backend.

(** ** The rest of the backend: the other endpoints and the quick store *)

Section Endpoints.
Context `{PyText} `{!Prompts}.

(** [s[:n]] on a string *)
Fixpoint str_take (n : nat) (s : string) : string :=
  match n, s with
  | S n', String c s' => String c (str_take n' s')
  | _, _ => EmptyString
  end.

(** [v[i]] for an index [i >= 0].  (The key of a [KeyError] is recorded by
    its text.) *)
Definition py_item_int (v : json) (i : nat) : result json :=
  match v with
  | JList l => py_index l i
  | JStr s =>
      match String.get i s with
      | Some c => Return (JStr (String c EmptyString))
      | None => Raise (IndexError "string index out of range")
      end
  | JDict _ => Raise (KeyError (PyStr.str_of_Z (Z.of_nat i)))
  | _ => Raise (TypeError "object is not subscriptable")
  end.

(** [v[:n]]: a string or a list has slices.  (A dict raises [TypeError]
    here up to Python 3.11 and [KeyError] from 3.12.) *)
Definition py_slice_to (v : json) (n : nat) : result json :=
  match v with
  | JStr s => Return (JStr (str_take n s))
  | JList l => Return (JList (take n l))
  | _ => Raise (TypeError "object is not subscriptable")
  end.

(** [v[k] = x] for a string key: only a dict takes it. *)
Definition py_setitem (v : json) (k : string) (x : json) : result json :=
  match v with
  | JDict d => Return (JDict (dict_set k x d))
  | _ => Raise (TypeError "object does not support item assignment")
  end.

(** [TokenTracker()]: a new object, referred to by a reference not in use. *)
Definition new_tracker : M nat := fun w =>
  let r := fresh (dom (trackers w)) in
  (Return r, set_trackers <[r := TokenTracker_new]> w).

(** *** session_store.py: the quick store *)

(** [load_quick_session(session_id)] *)
Definition load_quick_session (session_id : string) : M (option json) := fun w =>
  match quick_sessions_dir w !! (session_id +:+ ".json") with
  | None => (Return None, w)
  | Some text =>
      match json_loads text with
      | Decoded v => (Return (Some v), w)
      | JSONDecodeError msg => (Raise (ValueError msg), w)
      end
  end.

(** The dict appended by [list_quick_sessions] for one decoded file. *)
Definition quick_summary (name : string) (data : json) : result json :=
  timestamp ← py_get data "timestamp" (JStr "");
  duration_mode ← py_get data "duration_mode" (JStr "unknown");
  question ← py_get data "question" (JStr "");
  user_response ← py_get data "user_response" (JStr "");
  feedback ← py_get data "feedback" (JDict []);
  device ← py_get data "device" (JStr "unknown");
  Return (JDict [("session_id", JStr (stem name));
                 ("timestamp", timestamp);
                 ("duration_mode", duration_mode);
                 ("question", question);
                 ("user_response", user_response);
                 ("feedback", feedback);
                 ("device", device)]).

(** The [for] loop of [list_quick_sessions]. *)
Fixpoint list_quick_sessions_loop (files : list (string * string))
    (sessions : list json) : result (list json) :=
  match files with
  | [] => Return sessions
  | (name, text) :: rest =>
      match json_loads text with
      | JSONDecodeError _ => list_quick_sessions_loop rest sessions
      | Decoded data =>
          match quick_summary name data with
          | Return entry => list_quick_sessions_loop rest (sessions ++ [entry])
          | Raise (KeyError _) => list_quick_sessions_loop rest sessions
          | Raise e => Raise e
          end
      end
  end.

Definition list_quick_sessions : M (list json) := fun w =>
  (list_quick_sessions_loop (sorted_reverse (glob_json "" (quick_sessions_dir w))) [],
   w).

(** *** main.py: the other endpoints *)

(** [app_config.domain or "random"] *)
Definition domain_or_random (cfg : AppConfig) : string :=
  match domain cfg with
  | Some d => if String.eqb d "" then "random" else d
  | None => "random"
  end.

(** [POST /api/session/start] *)
Definition start_session : M json :=
  session_id ← generate_session_id;
  tracker ← new_tracker;
  scenario ←
    try_except (generate_scenario tracker)
      (fun e => raise (HTTPException 500
                         ("Failed to generate scenario: " +:+ exn_str e)));
  has_error ← lift (py_contains "error" scenario);
  if has_error : bool then
    error ← lift (py_get scenario "error" JNull);
    raw_response ← lift (py_get scenario "raw_response" (JStr ""));
    raw_response ← lift (py_slice_to raw_response 500);
    raise (HTTPException 500
             ("Scenario generation failed: " +:+ py_str error
              +:+ ". Raw response: " +:+ py_str raw_response))
  else
    timestamp ← gets now_isoformat;
    cfg ← gets app_config;
    model ← lift (config_model cfg);
    modify (set_active_sessions
              <[session_id :=
                  {| s_session_id := session_id; s_timestamp := timestamp;
                     s_model_used := api_name model;
                     s_domain := domain_or_random cfg;
                     s_difficulty := difficulty cfg; s_scenario := scenario;
                     s_user_responses := []; s_time_used := [];
                     s_tracker := tracker |}]>);;
    cfg ← gets app_config;
    let timer_background := timer_document cfg / 2 in
    background ← lift (py_item scenario "background");
    request ← lift (py_item scenario "request");
    model ← lift (config_model cfg);
    cost_so_far ← gets (fun w => estimate_cost (tracker_at (trackers w) tracker) model);
    mret (JDict [("session_id", JStr session_id);
                 ("background", background);
                 ("request", request);
                 ("config", JDict [("timer_request", JInt (timer_request cfg));
                                   ("timer_document", JInt (timer_document cfg));
                                   ("timer_predictions", JInt (timer_predictions cfg));
                                   ("timer_data", JInt (timer_data cfg));
                                   ("timer_background", JInt timer_background)]);
                 ("cost_so_far", JFloat cost_so_far)]).

(** [GET /api/session/{session_id}/doc/{doc_num}] *)
Definition get_document (session_id : string) (doc_num : Z) : M json :=
  session ← gets (fun w => active_sessions w !! session_id);
  match session with
  | None => raise (HTTPException 404 "Session not found")
  | Some session =>
      if (doc_num <? 1) || (doc_num >? 3) then
        raise (HTTPException 400 "doc_num must be 1, 2, or 3")
      else
        documents ← lift (py_item (s_scenario session) "documents");
        doc ← lift (py_item_int documents (Z.to_nat (doc_num - 1)));
        mret (JDict [("document", doc)])
  end.

(** [GET /api/session/{session_id}/data] *)
Definition get_data (session_id : string) : M json :=
  session ← gets (fun w => active_sessions w !! session_id);
  match session with
  | None => raise (HTTPException 404 "Session not found")
  | Some session =>
      data ← lift (py_item (s_scenario session) "data");
      mret (JDict [("data", data)])
  end.

(** A row of the checklist, and the request of a checklist review. *)
Record ChecklistRow := {
  row_id : string;
  row_parameter : string;
  row_check : string;
}.

Record ChecklistReviewRequest := {
  cr_doc_num : Z;
  cr_checklist : list ChecklistRow;
}.

(** [row.model_dump()] *)
Definition row_model_dump (row : ChecklistRow) : json :=
  JDict [("id", JStr (row_id row));
         ("parameter", JStr (row_parameter row));
         ("check", JStr (row_check row))].

(** [POST /api/session/{session_id}/review-checklist] *)
Definition review_checklist_endpoint (session_id : string)
    (request : ChecklistReviewRequest) : M json :=
  session ← gets (fun w => active_sessions w !! session_id);
  match session with
  | None => raise (HTTPException 404 "Session not found")
  | Some session =>
      if (cr_doc_num request <? 1) || (cr_doc_num request >? 3) then
        raise (HTTPException 400 "doc_num must be 1, 2, or 3")
      else
        let tracker := s_tracker session in
        let scenario := s_scenario session in
        documents ← lift (py_item scenario "documents");
        document ← lift (py_item_int documents (Z.to_nat (cr_doc_num request - 1)));
        let rubric_key := "key_concepts_doc" +:+ PyStr.str_of_Z (cr_doc_num request) in
        rubric ← lift (py_item scenario "rubric");
        rubric_concepts ← lift (py_get rubric rubric_key (JList []));
        let checklist_data := map row_model_dump (cr_checklist request) in
        feedback ←
          try_except
            (review_checklist document checklist_data rubric_concepts tracker)
            (fun e => raise (HTTPException 500
                               ("Checklist review failed: " +:+ exn_str e)));
        cfg ← gets app_config;
        model ← lift (config_model cfg);
        cost_so_far ← gets (fun w => estimate_cost (tracker_at (trackers w) tracker) model);
        mret (JDict [("feedback", feedback); ("cost_so_far", JFloat cost_so_far)])
  end.

(** [GET /api/session/{session_id}]: the table first, then the disk. *)
Definition get_session (session_id : string) : M json :=
  in_memory ← gets (fun w => active_sessions w !! session_id);
  match in_memory with
  | Some session =>
      mret (JDict [("session_id", JStr (s_session_id session));
                   ("timestamp", JStr (s_timestamp session));
                   ("scenario", s_scenario session);
                   ("user_responses", responses_json (s_user_responses session));
                   ("time_used", times_json (s_time_used session));
                   ("status", JStr "in_progress")])
  | None =>
      data ← load_session session_id;
      match data with
      | None => raise (HTTPException 404 "Session not found")
      | Some data =>
          if negb (truthy data) then raise (HTTPException 404 "Session not found")
          else lift (py_setitem data "status" (JStr "complete"))
      end
  end.

(** [GET /api/sessions] *)
Definition get_sessions : M json :=
  sessions ← list_sessions;
  mret (JDict [("sessions", JList sessions)]).

(** [GET /api/quick/sessions] *)
Definition get_quick_sessions : M json :=
  sessions ← list_quick_sessions;
  mret (JDict [("sessions", JList sessions)]).

(** [GET /api/cost/{session_id}] *)
Definition get_cost (session_id : string) : M json :=
  session ← gets (fun w => active_sessions w !! session_id);
  match session with
  | None => raise (HTTPException 404 "Session not found (may be completed)")
  | Some session =>
      let tracker := s_tracker session in
      cfg ← gets app_config;
      model ← lift (config_model cfg);
      cost ← gets (fun w => estimate_cost (tracker_at (trackers w) tracker) model);
      tokens ← token_usage_of tracker;
      mret (JDict [("cost", JFloat cost);
                   ("limit", JFloat (cost_limit cfg));
                   ("tokens", tokens)])
  end.

(** [DURATION_SECONDS] *)
Definition DURATION_SECONDS : list (string * Z) :=
  [("2.5min", 150); ("5min", 300); ("10min", 600)].

Record QuickStartRequest := {
  qst_duration_mode : string;
}.

(** [POST /api/quick/start] *)
Definition start_quick_session (request : QuickStartRequest) : M json :=
  let duration_mode := qst_duration_mode request in
  if negb (dict_mem duration_mode DURATION_SECONDS) then
    raise (HTTPException 400 "Invalid duration mode")
  else
    session_id ← generate_quick_session_id;
    tracker ← new_tracker;
    scenario ←
      try_except
        (cfg ← gets app_config;
         generate_quick_scenario duration_mode (domain cfg) tracker)
        (fun e => raise (HTTPException 500
                           ("Failed to generate scenario: " +:+ exn_str e)));
    has_error ← lift (py_contains "error" scenario);
    if has_error : bool then
      error ← lift (py_get scenario "error" JNull);
      raise (HTTPException 500 ("Scenario generation failed: " +:+ py_str error))
    else
      timestamp ← gets now_isoformat;
      modify (set_active_quick_sessions
                <[session_id :=
                    {| q_session_id := session_id; q_timestamp := timestamp;
                       q_duration_mode := duration_mode; q_scenario := scenario;
                       q_tracker := tracker |}]>);;
      question ← lift (py_item scenario "question");
      documents ← lift (py_item scenario "documents");
      timer_seconds ←
        lift (match dict_get duration_mode DURATION_SECONDS with
              | Some t => Return t
              | None => Raise (KeyError duration_mode)
              end);
      mret (JDict [("session_id", JStr session_id);
                   ("question", question);
                   ("documents", documents);
                   ("timer_seconds", JInt timer_seconds)]).
End Endpoints.

(** ** A concrete runtime for the examples *)


Module Example.

(** [f"{x:.2f}"] of an amount given in hundredths. *)
Definition format_cents (c : Z) : string :=
  PyStr.str_of_Z (c / 100) +:+ "." +:+ PyStr.zfill 2 (PyStr.str_of_Z (c mod 100)).

(** Costs in exact rational arithmetic; a result is rounded to the
    nearest multiple of [10^-ndigits]. *)
#[export] Instance exact_float : PyFloat := {|
  float := Q;
  int_truediv a b := Qred (inject_Z a / inject_Z b)%Q;
  fmul x y := Qred (x * y)%Q;
  fadd x y := Qred (x + y)%Q;
  round_ndigits x n :=
    Qred (inject_Z (Qfloor (x * inject_Z (10 ^ n) + (1 # 2))) / inject_Z (10 ^ n))%Q;
  fge x y := Qle_bool y x;
  float_truth x := negb (Qeq_bool x 0%Q);
  format_2f x := format_cents (Qfloor (x * inject_Z 100 + (1 # 2))%Q);
|}.

(** JSON texts are written with [dq] for the double quote. *)
Definition dq : string := String (ascii_of_nat 34) EmptyString.
Definition quoted (s : string) : string := dq +:+ s +:+ dq.
Definition member (k v : string) : string := quoted k +:+ ": " +:+ v.

(** A review with a completed overall score, and its text. *)
Definition graded_feedback : json :=
  JDict [("overall", JDict [("score", JInt 4);
                            ("summary", JStr "Solid notes.");
                            ("top_improvement", JStr "Quote the limits.")])].

Definition graded_feedback_text : string :=
  "{" +:+ member "overall"
    ("{" +:+ member "score" "4" +:+ ", "
         +:+ member "summary" (quoted "Solid notes.") +:+ ", "
         +:+ member "top_improvement" (quoted "Quote the limits.") +:+ "}")
  +:+ "}".

(** A persisted record of an earlier graded session, and its text. *)
Definition graded_record : json :=
  JDict [("timestamp", JStr "2026-02-06T10:00:00");
         ("feedback", graded_feedback)].

Definition graded_record_text : string :=
  "{" +:+ member "timestamp" (quoted "2026-02-06T10:00:00") +:+ ", "
      +:+ member "feedback" graded_feedback_text +:+ "}".

(** The text functions on the texts of the examples.  [json_loads]
    decodes the four JSON documents used below as Python does; the other
    texts handed to it there are not JSON.  [json_dumps] prints the empty
    containers as Python does and stands in a placeholder for any other
    value; no example decodes it again. *)
#[export] Instance table_text : PyText := {|
  json_loads s :=
    if String.eqb s "{}" then Decoded (JDict [])
    else if String.eqb s "[]" then Decoded (JList [])
    else if String.eqb s graded_record_text then Decoded graded_record
    else if String.eqb s graded_feedback_text then Decoded graded_feedback
    else JSONDecodeError "Expecting value: line 1 column 1 (char 0)";
  json_dumps v :=
    match v with
    | JDict [] => "{}"
    | JList [] => "[]"
    | _ => "{...}"
    end;
  py_str v := match v with JStr s => s | _ => "?" end;
|}.

(** Request builders that accept every input: the scenarios of the
    examples carry all the fields the real builders read. *)
#[export] Instance plain_prompts : Prompts := {|
  SCENARIO_SYSTEM_PROMPT := "You are a scenario generator.";
  REVIEW_SYSTEM_PROMPT := "You are an evaluator.";
  IMPROVEMENT_SYSTEM_PROMPT := "You are tracking a trainee's progress.";
  CHECKLIST_REVIEW_SYSTEM_PROMPT := "You are reviewing a checklist.";
  QUICK_SCENARIO_SYSTEM_PROMPT := "You are a quick scenario generator.";
  QUICK_GRADE_SYSTEM_PROMPT := "You are grading a response.";
  format_scenario_user_prompt _ _ _ _ _ _ _ _ := "Generate the complete scenario now.";
  get_review_user_prompt _ _ := Return "Evaluate the trainee's performance.";
  get_improvement_user_prompt _ _ := Return "Compare and provide your assessment.";
  get_checklist_review_prompt _ _ _ := Return "Review the checklist.";
  get_quick_grade_user_prompt _ _ _ _ _ := Return "Grade the trainee's response.";
|}.

(** [MODELS["opus"]], the model of the default configuration. *)
Definition opus : ModelConfig :=
  {| api_name := "claude-opus-4-6"; display_name := "Opus 4.6";
     input_cost_per_m := int_truediv 15 1; output_cost_per_m := int_truediv 75 1 |}.

Definition document (title content : string) : json :=
  JDict [("title", JStr title); ("content", JStr content)].

Definition scenario : json :=
  JDict [("background", document "Pump basics" "A pump moves fluid.");
         ("request", JDict [("from", JStr "A. Client");
                            ("subject", JStr "Pump sizing");
                            ("body", JStr "Size the pump.")]);
         ("documents", JList [document "Spec" "Flow 40 l/s.";
                              document "Memo" "Head 12 m.";
                              document "Test" "Efficiency 70%."]);
         ("data", JDict [("format", JStr "values");
                         ("description", JStr "Duty points");
                         ("content", JStr "Q=40, H=12")]);
         ("rubric", JDict [("deliverable_description", JStr "A sizing memo");
                           ("key_concepts_doc1", JList [JStr "flow"]);
                           ("key_concepts_doc2", JList [JStr "head"]);
                           ("key_concepts_doc3", JList [JStr "efficiency"]);
                           ("expected_data_patterns", JList [JStr "duty point"]);
                           ("data_analysis_points", JList [JStr "margin"]);
                           ("critical_connections", JList [JStr "flow and head"])])].

Definition session : Session :=
  {| s_session_id := "2026-02-07_001"; s_timestamp := "2026-02-07T09:00:00";
     s_model_used := "claude-opus-4-6"; s_domain := "random";
     s_difficulty := "intermediate"; s_scenario := scenario;
     s_user_responses := [("doc1_notes", "flow 40")];
     s_time_used := [("doc1_notes", 200)]; s_tracker := 0%nat |}.

Definition quick_scenario : json :=
  JDict [("question", JStr "Which pump?");
         ("documents", JList [JDict [("title", JStr "Sheet");
                                     ("bullets", JList [JStr "Flow 40 l/s"])]]);
         ("key_facts", JList [JStr "flow"]);
         ("ideal_response", JStr "Pump B.")].

Definition quick_session : QuickSession :=
  {| q_session_id := "quick_2026-02-07_001"; q_timestamp := "2026-02-07T09:30:00";
     q_duration_mode := "5min"; q_scenario := quick_scenario; q_tracker := 0%nat |}.

(** A world with one session and one quick session in progress, sharing
    nothing but the clock; [files] is the sessions directory and [answer]
    the oracle. *)
Definition world (files : gmap string string)
    (answer : list Request -> Request -> Reply) : World :=
  {| api_key := "sk-ant-example"; app_config := AppConfig_default;
     today := "2026-02-07"; now_isoformat := "2026-02-07T09:00:00";
     trackers := {[ 0%nat := TokenTracker_new ]};
     active_sessions := {[ "2026-02-07_001" := session ]};
     active_quick_sessions := {[ "quick_2026-02-07_001" := quick_session ]};
     sessions_dir := files; quick_sessions_dir := ∅;
     oracle := answer; oracle_requests := [] |}.

(** An oracle whose every answer is the given text. *)
Definition says (text : string) : list Request -> Request -> Reply :=
  fun _ _ => ReplyMessage 1200 300 [text].

(** An oracle that answers the first request with the text and fails
    from then on. *)
Definition says_once (text : string) : list Request -> Request -> Reply :=
  fun before _ =>
    match before with
    | [] => ReplyMessage 1200 300 [text]
    | _ => ReplyError (APIError "Overloaded")
    end.

(** An oracle that is unreachable. *)
Definition fails : list Request -> Request -> Reply :=
  fun _ _ => ReplyError (APIError "Overloaded").

(** The world with a tracker that has used a million input tokens: 15
    dollars for the default model, above the ceiling of 4. *)
Definition spent_world : World :=
  set_trackers
    (fun _ => {[ 0%nat := track TokenTracker_new 1000000 0 "scenario_generation" ]})
    (world ∅ (says "{}")).

Definition quick_request : QuickSubmitRequest :=
  {| qs_response := "Pump B, 40 l/s at 12 m."; qs_time_used := 140;
     qs_device := "mobile" |}.

(** A sessions directory with one graded record of the day before. *)
Definition one_graded : gmap string string :=
  {[ "2026-02-06_001.json" := graded_record_text ]}.

(** A sessions directory with that record and a file holding a JSON
    array. *)
Definition one_graded_one_array : gmap string string :=
  {[ "2026-02-06_001.json" := graded_record_text;
     "2026-02-06_002.json" := "[]" ]}.

(** Two records and a file that is not JSON. *)
Definition two_records_one_corrupt : gmap string string :=
  {[ "2026-02-05_001.json" := "{}";
     "2026-02-06_001.json" := graded_record_text;
     "2026-02-06_002.json" := "not json" ]}.

(** The third session of the day has been saved. *)
Definition third_saved : gmap string string :=
  {[ "2026-02-07_003.json" := "{}" ]}.

(** The world without an API key, and the world whose configuration
    names a model that is not in the table. *)
Definition keyless_world : World :=
  {| api_key := ""; app_config := AppConfig_default;
     today := "2026-02-07"; now_isoformat := "2026-02-07T09:00:00";
     trackers := {[ 0%nat := TokenTracker_new ]};
     active_sessions := {[ "2026-02-07_001" := session ]};
     active_quick_sessions := ∅;
     sessions_dir := ∅; quick_sessions_dir := ∅;
     oracle := says "{}"; oracle_requests := [] |}.

Definition unknown_model_world : World :=
  {| api_key := "sk-ant-example";
     app_config :=
       {| model_key := "gpt"; timer_request := 420; timer_document := 420;
          timer_predictions := 420; timer_data := 420;
          cost_limit := int_truediv 4 1; domain := None;
          difficulty := "intermediate" |};
     today := "2026-02-07"; now_isoformat := "2026-02-07T09:00:00";
     trackers := {[ 0%nat := TokenTracker_new ]};
     active_sessions := {[ "2026-02-07_001" := session ]};
     active_quick_sessions := ∅;
     sessions_dir := ∅; quick_sessions_dir := ∅;
     oracle := says "{}"; oracle_requests := [] |}.

(** An empty object inside a fence with a language tag. *)
Definition fenced_empty_object : string :=
  "```" +:+ "json" +:+ NL +:+ ("{}" +:+ NL) +:+ "```".

(** A quick directory with a record and a file that is not JSON. *)
Definition quick_files : gmap string string :=
  {[ "quick_2026-02-06_001.json" := "{}";
     "quick_2026-02-06_002.json" := "not json" ]}.

Definition doc2_request : SubmitNotesRequest :=
  {| sn_step := "doc2_notes"; sn_content := "head 12 m"; sn_time_used := 180 |}.
End Example.

(** ** The vocabulary of the specification *)

(** The four duration tiers of the content-scaling lookup. *)
Inductive Tier := UpTo90 | UpTo180 | UpTo300 | Longer.

Definition in_tier (t : Tier) (seconds : Z) : Prop :=
  match t with
  | UpTo90 => seconds <= 90
  | UpTo180 => 90 < seconds <= 180
  | UpTo300 => 180 < seconds <= 300
  | Longer => 300 < seconds
  end.

(** Request length, document length, data rows, key concepts, data points. *)
Definition tier_guidance (t : Tier) : LengthGuidance :=
  match t with
  | UpTo90 =>
      Build_LengthGuidance "1 short paragraph (2-3 sentences)"
        "2-3 sentences with 1-2 key facts each" "3-5 rows" "1-2" "2-3"
  | UpTo180 =>
      Build_LengthGuidance "1 paragraph (4-5 sentences)"
        "1 paragraph (4-6 sentences) with 2-3 key facts each" "5-7 rows" "2-3" "3-4"
  | UpTo300 =>
      Build_LengthGuidance "1-2 paragraphs"
        "1-2 paragraphs with 3-4 key facts each" "7-10 rows" "3-4" "3-4"
  | Longer =>
      Build_LengthGuidance "2-3 paragraphs"
        "2 full paragraphs with 4-5 key facts each" "10-14 rows" "3-5" "3-5"
  end.

Section SpecVocabulary.
Context `{PyText} `{!Prompts}.

(** A sequence of [track] calls, each with its input count, output count
    and label, applied to a tracker in order. *)
Definition track_all (cs : list (Z * Z * string)) (t : TokenTracker) : TokenTracker :=
  fold_left (fun t c => track t (fst (fst c)) (snd (fst c)) (snd c)) cs t.

Definition sum_input (cs : list (Z * Z * string)) : Z :=
  foldr Z.add 0 (map (fun c => fst (fst c)) cs).

Definition sum_output (cs : list (Z * Z * string)) : Z :=
  foldr Z.add 0 (map (fun c => snd (fst c)) cs).

(** The cost formula of the specification, on two totals. *)
Definition cost_formula (i o : Z) (model : ModelConfig) : float :=
  round_ndigits
    (fadd (fmul (int_truediv i 1000000) (input_cost_per_m model))
          (fmul (int_truediv o 1000000) (output_cost_per_m model))) 4.

(** A tracker holding two totals and nothing else. *)
Definition tracker_of_totals (i o : Z) : TokenTracker :=
  {| total_input_tokens := i; total_output_tokens := o;
     call_count := 0; calls := [] |}.

(** The six operations of the protocol, with their inputs. *)
Inductive Operation :=
| GenerateScenario
| GenerateReview (scenario : json) (user_responses : list (string * string))
| ImprovementComparison (past_summaries : list json) (current_feedback : json)
| ChecklistReview (document : json) (checklist : list json) (rubric_key_concepts : json)
| QuickScenario (duration_mode : string) (domain : option string)
| QuickGrade (question documents key_facts ideal_response : json)
             (user_response : string).

Definition invoke (op : Operation) (tracker : nat) : M json :=
  match op with
  | GenerateScenario => generate_scenario tracker
  | GenerateReview s r => generate_review s r tracker
  | ImprovementComparison p f => generate_improvement_comparison p f tracker
  | ChecklistReview d c r => review_checklist d c r tracker
  | QuickScenario m d => generate_quick_scenario m d tracker
  | QuickGrade q d k i u => grade_quick_response q d k i u tracker
  end.

(** The request of the operation can be built from its inputs. *)
Definition request_builds (op : Operation) : Prop :=
  match op with
  | GenerateScenario | QuickScenario _ _ => True
  | GenerateReview s r => is_raise (get_review_user_prompt s r) = false
  | ImprovementComparison p f => is_raise (get_improvement_user_prompt p f) = false
  | ChecklistReview d c r => is_raise (get_checklist_review_prompt d c r) = false
  | QuickGrade q d k i u => is_raise (get_quick_grade_user_prompt q d k i u) = false
  end.

(** What a call of the gateway cannot touch: everything in the world but
    the trackers and the log of requests. *)
Definition stores (w : World) :=
  (api_key w, app_config w, today w, now_isoformat w,
   active_sessions w, active_quick_sessions w,
   sessions_dir w, quick_sessions_dir w).

(** The outcome of a review that finalizes, from the world [w] in which
    the model calls have been made: the response, and the world with the
    record written and the session removed from the table. *)
Definition finalized (session_id : string) (session : Session)
    (feedback improvement : json) (model : ModelConfig) (w : World)
  : result json * World :=
  let token_usage := to_dict (tracker_at (trackers w) (s_tracker session)) model in
  (Return (JDict [("feedback", feedback);
                  ("improvement", improvement);
                  ("token_usage", token_usage)]),
   set_active_sessions (delete session_id)
     (set_sessions_dir
        <[session_id +:+ ".json" :=
            json_dumps (session_record session feedback improvement token_usage)]>
        w)).

(** An absent comparison where the call raised. *)
Definition downgraded (r : result json) : json :=
  match r with
  | Return v => v
  | Raise _ => JNull
  end.

(** The world once a request has been placed and its usage tracked. *)
Definition after_call (w : World) (rq : Request) (tracker : nat)
    (input_tokens output_tokens : Z) (call_label : string) : World :=
  set_trackers
    <[tracker := track (tracker_at (trackers w) tracker)
                   input_tokens output_tokens call_label]>
    (set_oracle_requests (fun l => l ++ [rq]) w).

(** The summary of one file, where the file decodes and has one. *)
Definition summary_of_file (f : string * string) : option json :=
  match json_loads (snd f) with
  | Decoded data =>
      match session_summary (fst f) data with
      | Return entry => Some entry
      | Raise _ => None
      end
  | JSONDecodeError _ => None
  end.

(** A file the listing can take: it does not decode, or the record it
    decodes to has a summary. *)
Definition listable (f : string * string) : Prop :=
  ∀ data, json_loads (snd f) = Decoded data →
          is_raise (session_summary (fst f) data) = false.

(** Newest first: the names of the files, in decreasing order. *)
Definition newer_first (f g : string * string) : Prop :=
  String.leb (fst g) (fst f) = true.

(** A result tagged as a parse failure: a dict with the key ["error"]. *)
Definition has_error_tag (v : json) : Prop :=
  match v with
  | JDict d => dict_mem "error" d = true
  | _ => False
  end.
End SpecVocabulary.

Section MoreVocabulary.
Context `{PyText} `{!Prompts}.

(** The record of one [track] call. *)
Definition call_record (c : Z * Z * string) : CallRecord :=
  {| cr_label := snd c; cr_input_tokens := fst (fst c);
     cr_output_tokens := snd (fst c) |}.

(** The request the gateway places for a prompt. *)
Definition request_of (model : ModelConfig) (system_prompt user_prompt : string)
    (max_tokens : Z) : Request :=
  {| rq_model := api_name model; rq_max_tokens := max_tokens;
     rq_system := system_prompt; rq_user := user_prompt |}.

(** The gateway gets as far as the oracle: the key is set, the model is
    configured and the cost is under the ceiling. *)
Definition call_goes_out (w : World) (tracker : nat) (model : ModelConfig) : Prop :=
  api_key w ≠ ""
  ∧ config_model (app_config w) = Return model
  ∧ fge (estimate_cost (tracker_at (trackers w) tracker) model)
        (cost_limit (app_config w)) = false.

(** The past summary of one file, where the file decodes and has one. *)
Definition past_summary_of_file (f : string * string) : option json :=
  match json_loads (snd f) with
  | Decoded data =>
      match past_summary (fst f) data with
      | Return (Some entry) => Some entry
      | _ => None
      end
  | JSONDecodeError _ => None
  end.

(** A file [get_past_summaries] can take. *)
Definition summarizable (f : string * string) : Prop :=
  ∀ data, json_loads (snd f) = Decoded data →
          is_raise (past_summary (fst f) data) = false.

(** The quick summary of one file, where the file decodes to an object. *)
Definition quick_summary_of_file (f : string * string) : option json :=
  match json_loads (snd f) with
  | Decoded data =>
      match quick_summary (fst f) data with
      | Return entry => Some entry
      | Raise _ => None
      end
  | JSONDecodeError _ => None
  end.

(** A file that does not decode, or decodes to an object. *)
Definition object_or_corrupt (f : string * string) : Prop :=
  ∀ data, json_loads (snd f) = Decoded data → ∃ d, data = JDict d.

(** The entry [start_session] puts into the table. *)
Definition started (session_id : string) (scenario : json) (tracker : nat)
    (model : ModelConfig) (w : World) : Session :=
  {| s_session_id := session_id; s_timestamp := now_isoformat w;
     s_model_used := api_name model;
     s_domain := domain_or_random (app_config w);
     s_difficulty := difficulty (app_config w); s_scenario := scenario;
     s_user_responses := []; s_time_used := []; s_tracker := tracker |}.

(** The answer of [start_session], built from the scenario. *)
Definition start_answer (session_id : string) (scenario : json) (tracker : nat)
    (model : ModelConfig) (w : World) : result json :=
  let cfg := app_config w in
  background ← py_item scenario "background";
  request ← py_item scenario "request";
  Return (JDict [("session_id", JStr session_id);
                 ("background", background);
                 ("request", request);
                 ("config", JDict [("timer_request", JInt (timer_request cfg));
                                   ("timer_document", JInt (timer_document cfg));
                                   ("timer_predictions", JInt (timer_predictions cfg));
                                   ("timer_data", JInt (timer_data cfg));
                                   ("timer_background", JInt (timer_document cfg / 2))]);
                 ("cost_so_far",
                  JFloat (estimate_cost (tracker_at (trackers w) tracker) model))]).

(** The failure [start_session] raises for a scenario with the key
    [error]. *)
Definition scenario_error (scenario : json) : result json :=
  error ← py_get scenario "error" JNull;
  raw_response ← py_get scenario "raw_response" (JStr "");
  raw_response ← py_slice_to raw_response 500;
  Raise (HTTPException 500
           ("Scenario generation failed: " +:+ py_str error
            +:+ ". Raw response: " +:+ py_str raw_response)).

(** A JSON value is an object holding [v] under the key [k]. *)
Definition has_member (k : string) (v : json) (data : json) : Prop :=
  match data with
  | JDict d => dict_get k d = Some v
  | _ => False
  end.
End MoreVocabulary.

(** ** Properties *)

Section DictFacts.
Context {V : Type}.
Implicit Types (d : list (string * V)) (k : string) (v : V).

Lemma dict_get_set_eq d k v : dict_get k (dict_set k v d) = Some v.
Proof.
  induction d as [|[k' v'] d IH]; simpl.
  - by rewrite String.eqb_refl.
  - destruct (String.eqb k' k) eqn:E; simpl.
    + by rewrite String.eqb_refl.
    + by rewrite E.
Qed.

Lemma dict_get_set_ne d k k' v : k' ≠ k → dict_get k' (dict_set k v d) = dict_get k' d.
Proof.
  intros Hne. induction d as [|[k0 v0] d IH]; simpl.
  - destruct (String.eqb_spec k k'); congruence.
  - destruct (String.eqb_spec k0 k) as [->|Hk]; simpl.
    + destruct (String.eqb_spec k k'); congruence.
    + by rewrite IH.
Qed.

Lemma dict_set_idem d k v : dict_set k v (dict_set k v d) = dict_set k v d.
Proof.
  induction d as [|[k' v'] d IH]; simpl.
  - by rewrite String.eqb_refl.
  - destruct (String.eqb k' k) eqn:E; simpl.
    + by rewrite String.eqb_refl.
    + by rewrite E, IH.
Qed.
End DictFacts.

Lemma is_valid_step_spec (step : string) : is_valid_step step = true ↔ step ∈ valid_steps.
Proof.
  unfold is_valid_step. rewrite existsb_exists, list_elem_of_In. split.
  - intros (x & Hx & E). apply String.eqb_eq in E. by subst.
  - intros Hin. exists step. split; [done | apply String.eqb_refl].
Qed.

(** C9. The length guidance of scenario generation is the four-tier
    lookup: every duration lies in exactly one of the tiers "at most 90",
    "at most 180", "at most 300", "longer", and the guidance is the fixed
    tuple of that tier.  The function reads nothing but the duration. *)
Theorem get_length_guidance_four_tiers (seconds : Z) :
  ∃ t, in_tier t seconds
       ∧ (∀ t', in_tier t' seconds → t' = t)
       ∧ get_length_guidance seconds = tier_guidance t.
Proof.
  unfold get_length_guidance.
  destruct (Z.leb_spec seconds 90);
    [exists UpTo90 | destruct (Z.leb_spec seconds 180);
       [exists UpTo180 | destruct (Z.leb_spec seconds 300);
          [exists UpTo300 | exists Longer]]];
    (split; [simpl; lia | split; [|reflexivity]]);
    intros [] Ht; simpl in Ht; solve [reflexivity | lia].
Qed.

Lemma get_length_guidance_four_tiers_witness :
  ∃ t, in_tier t 420 ∧ (∀ t', in_tier t' 420 → t' = t)
       ∧ get_length_guidance 420 = tier_guidance t.
Proof. apply (get_length_guidance_four_tiers 420). Defined.

(** *** Decimal numerals and file names *)

Module PyStrFacts.
Import PyStr.

Lemma app_nil_l s : "" +:+ s = s.
Proof. reflexivity. Qed.

Lemma app_cons c s t : String c s +:+ t = String c (s +:+ t).
Proof. reflexivity. Qed.

Lemma all_chars_app p s t :
  all_chars p (s +:+ t) = all_chars p s && all_chars p t.
Proof. induction s as [|c s IH]; simpl; [done|]. by rewrite IH, andb_assoc. Qed.

Lemma all_chars_impl (p q : ascii → bool) s :
  (∀ c, p c = true → q c = true) → all_chars p s = true → all_chars q s = true.
Proof.
  intros Hpq. induction s as [|c s IH]; simpl; [done|].
  rewrite !andb_true_iff. intros [? ?]. auto.
Qed.

Lemma digit_cases c :
  is_digit c = true →
  is_space c = false ∧ Ascii.eqb c "_" = false
  ∧ Ascii.eqb c "-" = false ∧ Ascii.eqb c "+" = false ∧ Ascii.eqb c "." = false.
Proof. destruct c as [[|] [|] [|] [|] [|] [|] [|] [|]]; by vm_compute. Qed.

Lemma string_of_uint_digits d : all_chars is_digit (NilEmpty.string_of_uint d) = true.
Proof. induction d; simpl; auto. Qed.

Lemma N_to_uint_not_nil n : N.to_uint n ≠ Nil.
Proof.
  destruct n as [|p]; simpl; [discriminate|].
  apply DecimalPos.Unsigned.to_uint_nonnil.
Qed.

Lemma str_of_N_eq n : str_of_N n = NilEmpty.string_of_uint (N.to_uint n).
Proof.
  unfold str_of_N, NilZero.string_of_uint.
  pose proof (N_to_uint_not_nil n). by destruct (N.to_uint n).
Qed.

Lemma str_of_N_digits n : all_chars is_digit (str_of_N n) = true.
Proof. rewrite str_of_N_eq. apply string_of_uint_digits. Qed.

Lemma str_of_N_not_empty n : str_of_N n ≠ "".
Proof.
  rewrite str_of_N_eq. pose proof (N_to_uint_not_nil n).
  by destruct (N.to_uint n).
Qed.

Lemma zeros_digits k : all_chars is_digit (zeros k) = true.
Proof. induction k; simpl; auto. Qed.

Lemma zfill_digits w s : all_chars is_digit s = true → all_chars is_digit (zfill w s) = true.
Proof. intros Hs. unfold zfill. by rewrite all_chars_app, zeros_digits, Hs. Qed.

Lemma zfill_not_empty w s : s ≠ "" → zfill w s ≠ "".
Proof. unfold zfill. destruct (zeros _); simpl; [done|]. discriminate. Qed.

Lemma lstrip_no_space s : all_chars (fun c => negb (is_space c)) s = true → lstrip s = s.
Proof. destruct s as [|c s]; simpl; [done|]. by destruct (is_space c). Qed.

Lemma rstrip_no_space s : all_chars (fun c => negb (is_space c)) s = true → rstrip s = s.
Proof.
  induction s as [|c s IH]; simpl; [done|].
  rewrite andb_true_iff. intros [Hc Hs]. rewrite (IH Hs).
  destruct s; [|done]. by destruct (is_space c).
Qed.

Lemma strip_no_space s : all_chars (fun c => negb (is_space c)) s = true → strip s = s.
Proof. intros Hs. unfold strip. by rewrite lstrip_no_space, rstrip_no_space. Qed.

Lemma digits_no_space s :
  all_chars is_digit s = true → all_chars (fun c => negb (is_space c)) s = true.
Proof.
  apply all_chars_impl. intros c Hc.
  destruct (digit_cases c Hc) as (-> & _). done.
Qed.

Lemma ungroup_digits s : all_chars is_digit s = true → ungroup true s = Some s.
Proof.
  induction s as [|c s IH]; simpl; [done|].
  rewrite andb_true_iff. intros [-> Hs]. by rewrite (IH Hs).
Qed.

Lemma ungroup_digits_first s :
  all_chars is_digit s = true → s ≠ "" → ungroup false s = Some s.
Proof.
  destruct s as [|c s]; simpl; [done|].
  rewrite andb_true_iff. intros [-> Hs] _. by rewrite (ungroup_digits s Hs).
Qed.

Lemma uint_of_string_zeros k s :
  NilEmpty.uint_of_string (zeros k +:+ s)
  = Nat.iter k D0 <$> NilEmpty.uint_of_string s.
Proof.
  induction k as [|k IH].
  - simpl. rewrite app_nil_l. by destruct (NilEmpty.uint_of_string s).
  - change (String "0" (zeros k) +:+ s) with (String "0" (zeros k +:+ s)).
    simpl. rewrite IH. by destruct (NilEmpty.uint_of_string s).
Qed.

Lemma of_uint_zeros k d : N.of_uint (Nat.iter k D0 d) = N.of_uint d.
Proof. induction k; simpl; auto. Qed.

Lemma uint_of_zfill w n :
  NilZero.uint_of_string (zfill w (str_of_N n))
  = Some (Nat.iter (w - String.length (str_of_N n)) D0 (N.to_uint n)).
Proof.
  pose proof (zfill_not_empty w _ (str_of_N_not_empty n)) as Hne.
  unfold NilZero.uint_of_string.
  destruct (zfill w (str_of_N n)) eqn:E; [done|]. rewrite <- E.
  unfold zfill. rewrite uint_of_string_zeros, str_of_N_eq, NilEmpty.usu. done.
Qed.

(** The digits of a zero-filled numeral read back as the number. *)
Lemma int_of_digits w n :
  ungroup false (zfill w (str_of_N n)) ≫= NilZero.uint_of_string
  = Some (Nat.iter (w - String.length (str_of_N n)) D0 (N.to_uint n)).
Proof.
  rewrite ungroup_digits_first.
  - simpl. apply uint_of_zfill.
  - apply zfill_digits, str_of_N_digits.
  - apply zfill_not_empty, str_of_N_not_empty.
Qed.

(** [int(f"{n:03d}") == n] *)
Lemma int_of_format_03d n : int_of_str (format_03d n) = Some n.
Proof.
  unfold int_of_str, format_03d.
  destruct (Z.ltb_spec n 0) as [Hn|Hn].
  - rewrite strip_no_space.
    2:{ simpl. apply digits_no_space, zfill_digits, str_of_N_digits. }
    simpl. rewrite int_of_digits. simpl.
    rewrite of_uint_zeros, DecimalN.Unsigned.of_to. f_equal. lia.
  - pose proof (zfill_digits 3 _ (str_of_N_digits (Z.abs_N n))) as Hd.
    pose proof (zfill_not_empty 3 _ (str_of_N_not_empty (Z.abs_N n))) as Hne.
    rewrite strip_no_space by by apply digits_no_space.
    destruct (zfill 3 (str_of_N (Z.abs_N n))) as [|c s] eqn:E; [done|].
    simpl in Hd. apply andb_true_iff in Hd as [Hc Hs].
    destruct (digit_cases c Hc) as (_ & _ & -> & -> & _).
    rewrite <- E, int_of_digits. simpl.
    rewrite of_uint_zeros, DecimalN.Unsigned.of_to. f_equal. lia.
Qed.

Lemma app_assoc s t u : (s +:+ t) +:+ u = s +:+ (t +:+ u).
Proof. induction s as [|c s IH]; [done|]. rewrite !app_cons. by rewrite IH. Qed.

Lemma app_length s t :
  String.length (s +:+ t) = (String.length s + String.length t)%nat.
Proof. induction s as [|c s IH]; [done|]. rewrite app_cons. simpl. by rewrite IH. Qed.

Lemma prefix_app p s : String.prefix p (p +:+ s) = true.
Proof.
  induction p as [|c p IH]; [by destruct s|].
  rewrite app_cons. simpl. destruct (ascii_dec c c); [done|congruence].
Qed.

Lemma endswith_app s p : endswith (s +:+ p) p = true.
Proof.
  induction s as [|c s IH].
  - rewrite app_nil_l. destruct p as [|a p]; [done|].
    cbn [endswith]. by rewrite String.eqb_refl.
  - rewrite app_cons. cbn [endswith]. rewrite IH. by destruct (String.eqb _ _).
Qed.

Lemma rpartition_dot_json s : rpartition "." (s +:+ ".json") = Some (s, "json").
Proof.
  induction s as [|c s IH]; [done|].
  rewrite app_cons. simpl. by rewrite IH.
Qed.

Lemma split_char_not_nil c s : split_char c s ≠ [].
Proof.
  destruct s as [|x s]; simpl; [done|].
  destruct (Ascii.eqb x c); [done|]. by destruct (split_char c s).
Qed.

Lemma last_cons_not_nil {A} (x : A) l d : l ≠ [] → List.last (x :: l) d = List.last l d.
Proof. by destruct l. Qed.

Lemma split_char_absent c s :
  all_chars (fun x => negb (Ascii.eqb x c)) s = true → split_char c s = [s].
Proof.
  induction s as [|x s IH]; simpl; [done|].
  rewrite andb_true_iff. intros [Hx Hs]. rewrite (IH Hs).
  by destruct (Ascii.eqb x c).
Qed.

Lemma last_field_app c p d :
  last_field c (p +:+ String c d) = last_field c d.
Proof.
  unfold last_field. induction p as [|x p IH].
  - rewrite app_nil_l. simpl. rewrite Ascii.eqb_refl.
    apply last_cons_not_nil, split_char_not_nil.
  - rewrite app_cons. simpl. destruct (Ascii.eqb x c).
    + rewrite last_cons_not_nil by apply split_char_not_nil. apply IH.
    + destruct (split_char c (p +:+ String c d)) as [|q [|q' qs]] eqn:E.
      * by destruct (split_char_not_nil c (p +:+ String c d)).
      * exfalso. clear IH. revert q E. induction p as [|y p IHp]; intros q E.
        -- rewrite app_nil_l in E. simpl in E. rewrite Ascii.eqb_refl in E.
           injection E as _ E. by destruct (split_char_not_nil c d).
        -- rewrite app_cons in E. simpl in E. destruct (Ascii.eqb y c).
           ++ injection E as _ E.
              by destruct (split_char_not_nil c (p +:+ String c d)).
           ++ destruct (split_char c (p +:+ String c d)) as [|r [|r' rs]] eqn:E';
                [by destruct (split_char_not_nil c (p +:+ String c d))
                | by apply (IHp r) | done].
      * rewrite <- IH. done.
Qed.

(** The counter of an id read back from the id. *)
Lemma last_field_id prefix n :
  last_field "_" (prefix +:+ "_" +:+ format_03d n) = format_03d n.
Proof.
  change (prefix +:+ "_" +:+ format_03d n)
    with (prefix +:+ String "_" (format_03d n)).
  rewrite last_field_app. unfold last_field. rewrite split_char_absent; [done|].
  unfold format_03d. destruct (n <? 0); simpl.
  - eapply all_chars_impl; [|apply zfill_digits, str_of_N_digits].
    intros c Hc. destruct (digit_cases c Hc) as (_ & -> & _). done.
  - eapply all_chars_impl; [|apply zfill_digits, str_of_N_digits].
    intros c Hc. destruct (digit_cases c Hc) as (_ & -> & _). done.
Qed.

Lemma zeros_length k : String.length (zeros k) = k.
Proof. induction k; simpl; auto. Qed.

Lemma str_of_N_short m : (m < 1000)%N → (String.length (str_of_N m) <= 3)%nat.
Proof.
  intros Hm.
  assert (forallb (fun k => (String.length (str_of_N (N.of_nat k)) <=? 3)%nat)
            (seq 0 1000) = true) as Hall by (vm_compute; reflexivity).
  rewrite forallb_forall in Hall.
  specialize (Hall (N.to_nat m)). rewrite N2Nat.id in Hall.
  apply Nat.leb_le, Hall, in_seq. lia.
Qed.

(** A numeral of at most three digits is printed on exactly three. *)
Lemma format_03d_length n :
  0 <= n →
  (3 <= String.length (format_03d n))%nat
  ∧ all_chars is_digit (format_03d n) = true
  ∧ (n <= 999 → String.length (format_03d n) = 3%nat).
Proof.
  intros Hn. unfold format_03d. destruct (Z.ltb_spec n 0); [lia|].
  split; [|split].
  - unfold zfill. rewrite app_length, zeros_length. lia.
  - apply zfill_digits, str_of_N_digits.
  - intros Hle. unfold zfill. rewrite app_length, zeros_length.
    assert (String.length (str_of_N (Z.abs_N n)) <= 3)%nat; [|lia].
    apply str_of_N_short. lia.
Qed.
End PyStrFacts.

Section Properties.
Context `{PyText} `{!Prompts}.

(** *** The cost tracker *)

Lemma track_all_totals cs t :
  total_input_tokens (track_all cs t) = total_input_tokens t + sum_input cs
  ∧ total_output_tokens (track_all cs t) = total_output_tokens t + sum_output cs.
Proof.
  revert t. induction cs as [|[[i o] l] cs IH]; intros t.
  - unfold sum_input, sum_output. simpl. lia.
  - simpl. destruct (IH (track t i o l)) as [-> ->].
    unfold sum_input, sum_output. simpl. lia.
Qed.

Lemma estimate_cost_formula t model :
  estimate_cost t model
  = cost_formula (total_input_tokens t) (total_output_tokens t) model.
Proof. reflexivity. Qed.

(** C6. After any sequence of [track] calls on a fresh tracker, and for
    any prices, [estimate_cost] is the rounded linear formula on the sums
    of the token counts; it equals [estimate_cost] of a tracker built
    from the summed totals; and the method leaves the tracker as it
    found it. *)
Theorem estimate_cost_additive (cs : list (Z * Z * string)) (model : ModelConfig) :
  let t := track_all cs TokenTracker_new in
  estimate_cost t model
  = round_ndigits
      (fadd (fmul (int_truediv (sum_input cs) 1000000) (input_cost_per_m model))
            (fmul (int_truediv (sum_output cs) 1000000) (output_cost_per_m model))) 4
  ∧ estimate_cost t model
    = estimate_cost (tracker_of_totals (sum_input cs) (sum_output cs)) model
  ∧ snd (estimate_cost_run t model) = t.
Proof.
  intros t. rewrite !estimate_cost_formula. unfold t.
  destruct (track_all_totals cs TokenTracker_new) as [-> ->].
  simpl. auto.
Qed.

(** *** The budget gate *)

Lemma call_claude_over_budget sp up tracker label mt w model :
  config_model (app_config w) = Return model →
  fge (estimate_cost (tracker_at (trackers w) tracker) model)
      (cost_limit (app_config w)) = true →
  _call_claude sp up tracker label mt w
  = (if String.eqb (api_key w) ""
     then Raise (ValueError api_key_message)
     else Raise (ValueError (cost_limit_message
                   (estimate_cost (tracker_at (trackers w) tracker) model)
                   (cost_limit (app_config w)))),
     w).
Proof.
  intros Hm Hge. unfold _call_claude, _get_client, mbind, M_bind, gets, lift, raise.
  destruct (String.eqb (api_key w) ""); [done|].
  rewrite Hm. cbn.
  unfold estimate_cost, estimate_cost_run in Hge. cbn in Hge. by rewrite Hge.
Qed.

Lemma built_then_call {A} (b : result string) (k : string → M A) w :
  (b' ← lift b; k b') w
  = match b with Return p => k p w | Raise e => (Raise e, w) end.
Proof. by destruct b. Qed.

(** The gateway call of an operation, over budget: it raises and returns
    the world; with the key set, the exception is the cost-limit error. *)
Ltac over_budget Hm Hge Hkey :=
  rewrite (call_claude_over_budget _ _ _ _ _ _ _ Hm Hge); simpl;
  destruct (String.eqb _ "") eqn:?; repeat split; try done;
  let Hk := fresh in intros Hk _; specialize (Hkey Hk); congruence.


(** *** Submitting notes *)

Lemma set_active_sessions_insert_twice session_id (a b : Session) w :
  set_active_sessions <[session_id := b]> (set_active_sessions <[session_id := a]> w)
  = set_active_sessions <[session_id := b]> w.
Proof. unfold set_active_sessions. simpl. by rewrite insert_insert_eq. Qed.

Lemma valid_steps_seven : length valid_steps = 7%nat ∧ NoDup valid_steps.
Proof.
  split; [reflexivity|].
  unfold valid_steps.
  repeat (apply NoDup_cons; split;
          [rewrite list_elem_of_In; simpl; intuition discriminate|]).
  apply NoDup_nil_2.
Qed.

Lemma submit_notes_valid w session_id session request :
  active_sessions w !! session_id = Some session →
  is_valid_step (sn_step request) = true →
  submit_notes session_id request w
  = (Return (JDict [("status", JStr "saved"); ("step", JStr (sn_step request))]),
     set_active_sessions
       <[session_id :=
           with_time_used
             (with_response session (sn_step request) (sn_content request))
             (sn_step request) (sn_time_used request)]> w).
Proof.
  intros Hs Hv. unfold submit_notes, mbind, M_bind, gets, modify, mret, M_ret.
  rewrite Hs, Hv. simpl. by rewrite set_active_sessions_insert_twice.
Qed.

(** C7. For an active session: the enumeration of steps has seven
    members; a submit with a step outside it fails with the 400 error and
    changes nothing (so neither the response map nor the time map); a
    submit with a recognized step stores the content and the time under
    the step, whatever was there before, leaves the other steps alone,
    and submitting the same request again changes nothing more. *)
Theorem submit_notes_validation (w : World) (session_id : string)
    (session : Session) (request : SubmitNotesRequest) :
  active_sessions w !! session_id = Some session →
  (length valid_steps = 7%nat ∧ NoDup valid_steps)
  ∧ (sn_step request ∉ valid_steps →
     submit_notes session_id request w
     = (Raise (HTTPException 400 (invalid_step_detail (sn_step request))), w))
  ∧ (sn_step request ∈ valid_steps →
     ∃ session' w',
       submit_notes session_id request w
       = (Return (JDict [("status", JStr "saved"); ("step", JStr (sn_step request))]),
          w')
       ∧ active_sessions w' !! session_id = Some session'
       ∧ dict_get (sn_step request) (s_user_responses session')
         = Some (sn_content request)
       ∧ dict_get (sn_step request) (s_time_used session')
         = Some (sn_time_used request)
       ∧ (∀ k, k ≠ sn_step request →
            dict_get k (s_user_responses session')
            = dict_get k (s_user_responses session)
            ∧ dict_get k (s_time_used session') = dict_get k (s_time_used session))
       ∧ snd (submit_notes session_id request w') = w').
Proof.
  intros Hs. split; [apply valid_steps_seven|]. split.
  - intros Hn. rewrite <- is_valid_step_spec in Hn.
    apply not_true_is_false in Hn.
    unfold submit_notes, mbind, M_bind, gets, raise. by rewrite Hs, Hn.
  - intros Hv. rewrite <- is_valid_step_spec in Hv.
    eexists _, _. split; [by apply submit_notes_valid|].
    split; [simpl; apply lookup_insert_eq|].
    split; [simpl; apply dict_get_set_eq|].
    split; [simpl; apply dict_get_set_eq|].
    split.
    + intros k Hk. simpl. by rewrite !dict_get_set_ne.
    + erewrite submit_notes_valid; [|simpl; apply lookup_insert_eq|done].
      simpl. rewrite set_active_sessions_insert_twice.
      unfold with_time_used, with_response. simpl.
      by rewrite !dict_set_idem.
Qed.

(** *** What the gateway leaves alone *)

Ltac run_monad :=
  unfold mbind, M_bind, mret, M_ret, gets, lift, raise, modify, try_except in *.

Lemma call_claude_stores sp up tracker label mt w :
  stores (snd (_call_claude sp up tracker label mt w)) = stores w.
Proof.
  unfold _call_claude, _get_client, messages_create, tracker_track. run_monad.
  repeat (case_match; simplify_eq/=; try done).
Qed.

Lemma invoke_stores op tracker w : stores (snd (invoke op tracker w)) = stores w.
Proof.
  destruct op; simpl;
    unfold generate_scenario, generate_review, generate_improvement_comparison,
      review_checklist, generate_quick_scenario, grade_quick_response;
    try rewrite built_then_call; try case_match; try done;
    try apply call_claude_stores.
Qed.

Lemma grade_quick_session_stores session request w :
  stores (snd (grade_quick_session session request w)) = stores w.
Proof.
  unfold grade_quick_session.
  repeat (rewrite (built_then_call (A := json)) || unfold lift, mbind, M_bind;
          case_match; simplify_eq/=; try done).
  apply (invoke_stores (QuickGrade _ _ _ _ _)).
Qed.

Lemma stores_inv w w' :
  stores w' = stores w →
  app_config w' = app_config w
  ∧ active_sessions w' = active_sessions w
  ∧ active_quick_sessions w' = active_quick_sessions w
  ∧ sessions_dir w' = sessions_dir w
  ∧ quick_sessions_dir w' = quick_sessions_dir w.
Proof. unfold stores. intros E. by simplify_eq. Qed.

(** *** Quick practice: grading and persistence *)

(** C10. For an active quick session: when grading returns a result that
    carries the error tag, the submit fails with the 500 parse error, no
    file is written and the tables are as before, the session still
    in place (the world is the one the grading call left: the shared
    tracker has recorded the call).  And whenever the submit has written
    to the quick directory or removed the session, grading had returned a
    result without the tag, the submit succeeded, and both the file and
    the removal are there. *)
Theorem quick_grade_error_atomicity (w : World) (session_id : string)
    (session : QuickSession) (request : QuickSubmitRequest) :
  active_quick_sessions w !! session_id = Some session →
  (∀ d e w1,
     grade_quick_session session request w = (Return (JDict d), w1) →
     dict_get "error" d = Some e →
     submit_quick_session session_id request w
     = (Raise (HTTPException 500 ("Grading parse error: " +:+ py_str e)), w1)
     ∧ stores w1 = stores w
     ∧ active_quick_sessions w1 !! session_id = Some session)
  ∧ (∀ r w',
     submit_quick_session session_id request w = (r, w') →
     quick_sessions_dir w' ≠ quick_sessions_dir w
     ∨ active_quick_sessions w' !! session_id = None →
     ∃ feedback w1,
       grade_quick_session session request w = (Return feedback, w1)
       ∧ py_contains "error" feedback = Return false
       ∧ r = Return (JDict [("feedback", feedback)])
       ∧ is_Some (quick_sessions_dir w' !! (session_id +:+ ".json"))
       ∧ active_quick_sessions w' !! session_id = None).
Proof.
  intros Hs. split.
  - intros d e w1 Hg He.
    pose proof (grade_quick_session_stores session request w) as Hst.
    rewrite Hg in Hst. simpl in Hst.
    split; [|split; [done|]].
    + unfold submit_quick_session. run_monad. rewrite Hs, Hg. simpl.
      unfold dict_mem. by rewrite He.
    + apply stores_inv in Hst as (_ & _ & -> & _). done.
  - intros r w' Hrun Hch.
    pose proof (grade_quick_session_stores session request w) as Hst.
    unfold submit_quick_session in Hrun. run_monad. rewrite Hs in Hrun.
    destruct (grade_quick_session session request w) as [[feedback|e] w1] eqn:Hg;
      simpl in Hst; apply stores_inv in Hst as (Hc & _ & Haq & _ & Hqd).
    2:{ simplify_eq. destruct Hch as [Hch|Hch]; [done|]. rewrite Haq in Hch. congruence. }
    exists feedback, w1. split; [done|].
    assert (Hkeep : ∀ r0, (r0, w1) = (r, w') → False).
    { intros r0 E. simplify_eq. destruct Hch as [Hch|Hch]; [done|].
      rewrite Haq in Hch. congruence. }
    destruct (py_contains "error" feedback) as [[|]|e]; [| |by destruct (Hkeep _ Hrun)].
    { destruct (py_get feedback "error" JNull); by destruct (Hkeep _ Hrun). }
    destruct (py_item (q_scenario session) "question"); [|by destruct (Hkeep _ Hrun)].
    destruct (py_item (q_scenario session) "documents"); [|by destruct (Hkeep _ Hrun)].
    destruct (py_item (q_scenario session) "key_facts"); [|by destruct (Hkeep _ Hrun)].
    destruct (py_item (q_scenario session) "ideal_response");
      [|by destruct (Hkeep _ Hrun)].
    unfold token_usage_of, save_quick_session, del_active_quick_session in Hrun.
    run_monad.
    destruct (config_model (app_config w1)); [|by destruct (Hkeep _ Hrun)].
    simpl in Hrun. rewrite Haq, Hs in Hrun. simplify_eq. simpl.
    split; [done|]. split; [done|]. split.
    + rewrite lookup_insert_eq. by eexists.
    + apply lookup_delete_eq.
Qed.

(** *** Review: comparison and finalization *)

Lemma generate_review_stores scenario responses tracker w :
  stores (snd (generate_review scenario responses tracker w)) = stores w.
Proof. apply (invoke_stores (GenerateReview _ _)). Qed.

Lemma generate_improvement_comparison_stores past feedback tracker w :
  stores (snd (generate_improvement_comparison past feedback tracker w)) = stores w.
Proof. apply (invoke_stores (ImprovementComparison _ _)). Qed.

Lemma finish_review session_id session feedback improvement model w0 w :
  active_sessions w0 !! session_id = Some session →
  config_model (app_config w0) = Return model →
  stores w = stores w0 →
  (token_usage ← token_usage_of (s_tracker session);
   save_session session_id
     (session_record session feedback improvement token_usage);;
   del_active_session session_id;;
   token_usage ← token_usage_of (s_tracker session);
   mret (JDict [("feedback", feedback);
                ("improvement", improvement);
                ("token_usage", token_usage)])) w
  = finalized session_id session feedback improvement model w.
Proof.
  intros Hs Hm Hst. apply stores_inv in Hst as (Hc & Ha & _).
  unfold token_usage_of, save_session, del_active_session, finalized. run_monad.
  rewrite Hc, Hm. simpl. rewrite Ha, Hs. simpl. by rewrite Hc, Hm.
Qed.

Lemma review_session_compared w session_id session feedback w1 past model rc w2 :
  active_sessions w !! session_id = Some session →
  generate_review (s_scenario session) (s_user_responses session)
    (s_tracker session) w = (Return feedback, w1) →
  get_past_summaries 5 w1 = (Return past, w1) →
  config_model (app_config w) = Return model →
  past ≠ [] →
  py_contains "error" feedback = Return false →
  generate_improvement_comparison past feedback (s_tracker session) w1 = (rc, w2) →
  review_session session_id w
  = finalized session_id session feedback (downgraded rc) model w2.
Proof.
  intros Hs Hg Hp Hm Hne Hc Hi.
  pose proof (generate_review_stores (s_scenario session) (s_user_responses session)
                (s_tracker session) w) as Hst1.
  rewrite Hg in Hst1. simpl in Hst1.
  pose proof (generate_improvement_comparison_stores past feedback
                (s_tracker session) w1) as Hst2.
  rewrite Hi in Hst2. simpl in Hst2. rewrite Hst1 in Hst2.
  rewrite <- (finish_review session_id session feedback (downgraded rc) model w w2)
    by done.
  unfold review_session. unfold mbind at 1, M_bind at 1, gets at 1. rewrite Hs.
  unfold mbind at 1, M_bind at 1, try_except at 1. rewrite Hg.
  unfold mbind at 1, M_bind at 1. rewrite Hp.
  destruct past as [|p past]; [done|].
  unfold mbind at 1, M_bind at 1. unfold mbind at 1, M_bind at 1, lift at 1.
  rewrite Hc. unfold mret at 1, M_ret at 1. simpl negb.
  unfold mbind at 1, M_bind at 1, try_except at 1. rewrite Hi.
  by destruct rc.
Qed.

Lemma review_session_not_compared w session_id session feedback w1 past model :
  active_sessions w !! session_id = Some session →
  generate_review (s_scenario session) (s_user_responses session)
    (s_tracker session) w = (Return feedback, w1) →
  get_past_summaries 5 w1 = (Return past, w1) →
  config_model (app_config w) = Return model →
  past = [] ∨ py_contains "error" feedback = Return true →
  review_session session_id w = finalized session_id session feedback JNull model w1.
Proof.
  intros Hs Hg Hp Hm Hno.
  pose proof (generate_review_stores (s_scenario session) (s_user_responses session)
                (s_tracker session) w) as Hst1.
  rewrite Hg in Hst1. simpl in Hst1.
  rewrite <- (finish_review session_id session feedback JNull model w w1) by done.
  unfold review_session. unfold mbind at 1, M_bind at 1, gets at 1. rewrite Hs.
  unfold mbind at 1, M_bind at 1, try_except at 1. rewrite Hg.
  unfold mbind at 1, M_bind at 1. rewrite Hp.
  destruct past as [|p past].
  - done.
  - destruct Hno as [?|Hc]; [done|].
    unfold mbind at 1, M_bind at 1. unfold mbind at 1, M_bind at 1, lift at 1.
    by rewrite Hc.
Qed.

Lemma finish_review_inv session_id session feedback improvement w0 w r w' :
  active_sessions w0 !! session_id = Some session →
  stores w = stores w0 →
  (token_usage ← token_usage_of (s_tracker session);
   save_session session_id
     (session_record session feedback improvement token_usage);;
   del_active_session session_id;;
   token_usage ← token_usage_of (s_tracker session);
   mret (JDict [("feedback", feedback);
                ("improvement", improvement);
                ("token_usage", token_usage)])) w = (r, w') →
  active_sessions w' !! session_id = None →
  is_raise r = false
  ∧ ∃ token_usage,
      sessions_dir w' !! (session_id +:+ ".json")
      = Some (json_dumps (session_record session feedback improvement token_usage)).
Proof.
  intros Hs Hst Hrun Hgone.
  destruct (config_model (app_config w0)) as [model|e] eqn:Hm.
  - rewrite (finish_review _ _ _ _ model w0 w Hs Hm Hst) in Hrun.
    unfold finalized in Hrun. simplify_eq. split; [done|].
    eexists. simpl. apply lookup_insert_eq.
  - apply stores_inv in Hst as (Hc & Ha & _).
    unfold token_usage_of in Hrun. run_monad. rewrite Hc, Hm in Hrun.
    simplify_eq. rewrite Ha in Hgone. congruence.
Qed.

Lemma finalized_persisted session_id session feedback improvement model w :
  let out := finalized session_id session feedback improvement model w in
  is_raise (fst out) = false
  ∧ sessions_dir (snd out) !! (session_id +:+ ".json")
    = Some (json_dumps
              (session_record session feedback improvement
                 (to_dict (tracker_at (trackers w) (s_tracker session)) model)))
  ∧ active_sessions (snd out) !! session_id = None
  ∧ oracle_requests (snd out) = oracle_requests w.
Proof.
  simpl. split; [done|]. split; [apply lookup_insert_eq|].
  split; [apply lookup_delete_eq | done].
Qed.



(** *** Allocation of session ids *)

Lemma List_filter_Permutation {A} (f : A → bool) l l' :
  l ≡ₚ l' → List.filter f l ≡ₚ List.filter f l'.
Proof.
  induction 1 as [|x l l' _ IH|x y l|l l' l'' _ IH1 _ IH2]; simpl.
  - done.
  - destruct (f x); by rewrite IH.
  - destruct (f x), (f y); try done. apply perm_swap.
  - by etrans.
Qed.

Lemma mapM_result_cons {A B} (f : A → result B) x l :
  mapM f (x :: l)
  = match f x with
    | Return y => match mapM f l with
                  | Return k => Return (y :: k)
                  | Raise e => Raise e
                  end
    | Raise e => Raise e
    end.
Proof. simpl. unfold mbind, result_bind. by destruct (f x). Qed.

Lemma mapM_result_Permutation {A B} (f : A → result B) l l' cs :
  l ≡ₚ l' → mapM f l = Return cs → ∃ cs', mapM f l' = Return cs' ∧ cs ≡ₚ cs'.
Proof.
  intros Hp. revert cs.
  induction Hp as [|x l l' _ IH|x y l|l l' l'' _ IH1 _ IH2]; intros cs.
  - simpl. intros [= <-]. by exists [].
  - rewrite !mapM_result_cons. destruct (f x) as [c|]; [|done].
    destruct (mapM f l) as [k|]; [|done]. intros [= <-].
    destruct (IH k eq_refl) as (k' & -> & Hk). exists (c :: k'). by rewrite Hk.
  - rewrite !mapM_result_cons.
    destruct (f x) as [c|], (f y) as [c'|]; try done.
    destruct (mapM f l) as [k|]; [|done]. intros [= <-].
    exists (c :: c' :: k). split; [done|apply perm_swap].
  - intros E. destruct (IH1 _ E) as (cs1 & E1 & Hp1).
    destruct (IH2 _ E1) as (cs2 & E2 & Hp2). exists cs2. split; [done|by etrans].
Qed.

Lemma mapM_result_elem {A B} (f : A → result B) l cs x :
  mapM f l = Return cs → x ∈ l → ∃ c, f x = Return c ∧ c ∈ cs.
Proof.
  revert cs. induction l as [|y l IH]; intros cs E Hx.
  - by apply elem_of_nil in Hx.
  - rewrite mapM_result_cons in E. destruct (f y) as [c|] eqn:Ey; [|done].
    destruct (mapM f l) as [k|]; [|done]. injection E as <-.
    apply elem_of_cons in Hx as [->|Hx].
    + exists c. split; [done|left].
    + destruct (IH k eq_refl Hx) as (c' & ? & ?). exists c'. split; [done|by right].
Qed.

Lemma fold_left_max_spec l x :
  let m := fold_left Z.max l x in
  (m = x ∨ m ∈ l) ∧ x <= m ∧ ∀ c, c ∈ l → c <= m.
Proof.
  revert x. induction l as [|y l IH]; intros x; simpl.
  - split; [by left|]. split; [lia|]. intros c Hc. by apply elem_of_nil in Hc.
  - destruct (IH (Z.max x y)) as (Hm & Hx & Hl). split; [|split].
    + destruct Hm as [Hm|Hm]; [|right; by right].
      destruct (Z.max_spec x y) as [[_ E]|[_ E]]; rewrite E in Hm |- *;
        [right; rewrite Hm; left|by left].
    + lia.
    + intros c Hc. apply elem_of_cons in Hc as [->|Hc]; [lia|by apply Hl].
Qed.

Lemma py_max_spec cs m :
  py_max cs = Return m ↔ m ∈ cs ∧ ∀ c, c ∈ cs → c <= m.
Proof.
  destruct cs as [|x l]; simpl.
  - split; [done|]. intros [Hm _]. by apply elem_of_nil in Hm.
  - destruct (fold_left_max_spec l x) as (Hm & Hx & Hl). split.
    + intros [= <-]. split.
      * destruct Hm as [->|Hm]; [left|by right].
      * intros c Hc. apply elem_of_cons in Hc as [->|Hc]; [done|by apply Hl].
    + intros [Hin Hub]. f_equal. apply Z.le_antisymm.
      * destruct Hm as [->|Hm]; apply Hub; [left|by right].
      * apply elem_of_cons in Hin as [->|Hin]; [done|by apply Hl].
Qed.

Lemma stem_json s : s ≠ "" → stem (s +:+ ".json") = s.
Proof.
  intros Hs. unfold stem. rewrite PyStrFacts.rpartition_dot_json.
  destruct s; [done|]. done.
Qed.

Lemma counter_of_id prefix n :
  counter_of (prefix +:+ "_" +:+ PyStr.format_03d n) = Return n.
Proof.
  unfold counter_of. by rewrite PyStrFacts.last_field_id, PyStrFacts.int_of_format_03d.
Qed.

Lemma id_not_empty prefix n : prefix +:+ "_" +:+ PyStr.format_03d n ≠ "".
Proof. destruct prefix; discriminate. Qed.

Lemma glob_json_elem prefix dir name text :
  (name, text) ∈ glob_json prefix dir
  ↔ dir !! name = Some text
    ∧ PyStr.startswith name prefix && PyStr.endswith name ".json"
      && (String.length prefix + 5 <=? String.length name)%nat = true.
Proof.
  unfold glob_json. rewrite list_elem_of_In, filter_In, <- list_elem_of_In.
  by rewrite elem_of_map_to_list.
Qed.

Lemma glob_json_id prefix n :
  let name := (prefix +:+ "_" +:+ PyStr.format_03d n) +:+ ".json" in
  PyStr.startswith name (prefix +:+ "_") && PyStr.endswith name ".json"
  && (String.length (prefix +:+ "_") + 5 <=? String.length name)%nat = true.
Proof.
  intros name. unfold name, PyStr.startswith.
  rewrite PyStrFacts.endswith_app.
  replace ((prefix +:+ "_" +:+ PyStr.format_03d n) +:+ ".json")
    with ((prefix +:+ "_") +:+ (PyStr.format_03d n +:+ ".json"))
    by by rewrite !PyStrFacts.app_assoc.
  rewrite PyStrFacts.prefix_app. simpl.
  apply Nat.leb_le. rewrite !PyStrFacts.app_length. simpl. lia.
Qed.

Lemma glob_json_insert prefix dir name text :
  dir !! name = None →
  PyStr.startswith name prefix && PyStr.endswith name ".json"
  && (String.length prefix + 5 <=? String.length name)%nat = true →
  glob_json prefix (<[name := text]> dir) ≡ₚ (name, text) :: glob_json prefix dir.
Proof.
  intros Hfree Hmatch. unfold glob_json.
  rewrite (List_filter_Permutation _ _ _ (map_to_list_insert dir name text Hfree)).
  simpl. by rewrite Hmatch.
Qed.

(** What an allocation returns: the counter is beyond the counters of
    the files of the day. *)
Lemma next_session_id_counter prefix dir id :
  next_session_id prefix dir = Return id →
  ∃ n cs,
    id = prefix +:+ "_" +:+ PyStr.format_03d n
    ∧ mapM counter_of (map (fun f => stem (fst f)) (glob_json (prefix +:+ "_") dir))
      = Return cs
    ∧ (cs = [] → n = 1)
    ∧ ∀ c, c ∈ cs → c < n.
Proof.
  unfold next_session_id.
  destruct (map _ (glob_json (prefix +:+ "_") dir)) as [|x existing] eqn:E.
  - intros [= <-]. exists 1, []. repeat split; try done.
    intros c Hc. by apply elem_of_nil in Hc.
  - unfold mbind at 1, result_bind at 1. unfold mbind at 1, result_bind at 1.
    destruct (mapM counter_of (x :: existing)) as [cs|]; [|done].
    unfold mbind at 1, result_bind at 1.
    destruct (py_max cs) as [m|] eqn:Em; [|done].
    intros [= <-]. exists (m + 1), cs. split; [done|]. split; [done|].
    apply py_max_spec in Em as [Hin Hub]. split.
    + intros ->. by apply elem_of_nil in Hin.
    + intros c Hc. specialize (Hub c Hc). lia.
Qed.

Lemma next_session_id_after_save prefix dir id text :
  next_session_id prefix dir = Return id →
  ∃ n,
    id = prefix +:+ "_" +:+ PyStr.format_03d n
    ∧ next_session_id prefix (<[id +:+ ".json" := text]> dir)
      = Return (prefix +:+ "_" +:+ PyStr.format_03d (n + 1)).
Proof.
  intros Hid.
  destruct (next_session_id_counter _ _ _ Hid) as (n & cs & -> & Hcs & _ & Hlt).
  exists n. split; [done|].
  set (id := prefix +:+ "_" +:+ PyStr.format_03d n) in *.
  assert (Hfree : dir !! (id +:+ ".json") = None).
  { destruct (dir !! (id +:+ ".json")) as [t|] eqn:Ed; [|done]. exfalso.
    assert ((id +:+ ".json", t) ∈ glob_json (prefix +:+ "_") dir) as Hin
      by (apply glob_json_elem; split; [done|apply glob_json_id]).
    apply (list_elem_of_fmap_2 (fun f => stem (fst f))) in Hin. simpl in Hin.
    rewrite stem_json in Hin by apply id_not_empty.
    destruct (mapM_result_elem _ _ _ _ Hcs Hin) as (c & Hc & Hin').
    unfold id in Hc. rewrite counter_of_id in Hc. injection Hc as <-.
    specialize (Hlt n Hin'). lia. }
  pose proof (glob_json_insert (prefix +:+ "_") dir (id +:+ ".json") text Hfree
                (glob_json_id prefix n)) as Hperm.
  apply (Permutation_map (fun f => stem (fst f))) in Hperm. simpl in Hperm.
  rewrite stem_json in Hperm by apply id_not_empty.
  assert (mapM counter_of
            (id :: map (fun f => stem (fst f)) (glob_json (prefix +:+ "_") dir))
          = Return (n :: cs)) as Hcons.
  { rewrite mapM_result_cons, Hcs. unfold id. by rewrite counter_of_id. }
  symmetry in Hperm.
  destruct (mapM_result_Permutation _ _ _ _ Hperm Hcons) as (cs' & Hcs' & Hp').
  assert (py_max cs' = Return n) as Hmax.
  { apply py_max_spec. split.
    - rewrite <- Hp'. left.
    - intros c Hc. rewrite <- Hp' in Hc.
      apply elem_of_cons in Hc as [->|Hc]; [done|]. specialize (Hlt c Hc). lia. }
  unfold next_session_id.
  destruct (map _ (glob_json (prefix +:+ "_") (<[id +:+ ".json" := text]> dir)))
    as [|x existing] eqn:E.
  - symmetry in Hperm. by apply Permutation_nil_cons in Hperm.
  - unfold mbind at 1, result_bind at 1. unfold mbind at 1, result_bind at 1.
    rewrite Hcs'. unfold mbind at 1, result_bind at 1. by rewrite Hmax.
Qed.


(** *** The parsing stage of the gateway *)

Section Reply.
Variables (sp up : string) (tracker : nat) (label : string) (mt : Z).
Variables (w : World) (model : ModelConfig).
Variables (i o : Z) (raw : string) (rest : list string).

Let rq : Request :=
  {| rq_model := api_name model; rq_max_tokens := mt;
     rq_system := sp; rq_user := up |}.

Hypothesis Hkey : api_key w ≠ "".
Hypothesis Hmodel : config_model (app_config w) = Return model.
Hypothesis Hbudget :
  fge (estimate_cost (tracker_at (trackers w) tracker) model)
      (cost_limit (app_config w)) = false.
Hypothesis Hreply : oracle w (oracle_requests w) rq = ReplyMessage i o (raw :: rest).

(** A text that is not fenced and does not decode comes back as the
    tagged record, with the text as received. *)
Lemma call_claude_unparsable msg :
  PyStr.startswith (PyStr.strip raw) "```" = false →
  json_loads (PyStr.strip raw) = JSONDecodeError msg →
  _call_claude sp up tracker label mt w
  = (Return (parse_failure raw msg), after_call w rq tracker i o label).
Proof.
  intros Hfence Hloads. apply String.eqb_neq in Hkey.
  unfold _call_claude, _get_client, messages_create, tracker_track. run_monad.
  rewrite Hkey, Hmodel. cbn.
  unfold estimate_cost, estimate_cost_run in Hbudget. cbn in Hbudget.
  rewrite Hbudget. fold rq. rewrite Hreply. cbn. rewrite Hfence. cbn.
  by rewrite Hloads.
Qed.

(** A text that opens a fence and has no line break makes the gateway
    raise: [split] yields one piece and the code takes the second. *)
Lemma call_claude_fence_without_newline :
  PyStr.startswith (PyStr.strip raw) "```" = true →
  PyStr.partition NL (PyStr.strip raw) = None →
  _call_claude sp up tracker label mt w
  = (Raise (IndexError "list index out of range"),
     after_call w rq tracker i o label).
Proof.
  intros Hfence Hnl. apply String.eqb_neq in Hkey.
  unfold _call_claude, _get_client, messages_create, tracker_track. run_monad.
  rewrite Hkey, Hmodel. cbn.
  unfold estimate_cost, estimate_cost_run in Hbudget. cbn in Hbudget.
  rewrite Hbudget. fold rq. rewrite Hreply. cbn. rewrite Hfence. cbn.
  unfold PyStr.split1. by rewrite Hnl.
Qed.
End Reply.

(** *** Listing the store *)

(** A file that does not decode is skipped. *)
Lemma list_sessions_loop_skips name text rest sessions msg :
  json_loads text = JSONDecodeError msg →
  list_sessions_loop ((name, text) :: rest) sessions
  = list_sessions_loop rest sessions.
Proof. intros E. simpl. by rewrite E. Qed.

(** On files that are all listable, the loop appends the summaries of
    those that decode, in the order of the files. *)
Lemma list_sessions_loop_listable files sessions :
  Forall listable files →
  list_sessions_loop files sessions = Return (sessions ++ omap summary_of_file files).
Proof.
  intros Hall. revert sessions.
  induction Hall as [|[name text] files Hf _ IH]; intros sessions; simpl.
  - by rewrite app_nil_r.
  - unfold summary_of_file, listable in *. simpl in *.
    destruct (json_loads text) as [data|msg]; [|apply IH].
    specialize (Hf data eq_refl).
    destruct (session_summary name data) as [entry|e]; [|done].
    rewrite IH. by rewrite <- app_assoc.
Qed.

Lemma insert_desc_Permutation f l : insert_desc f l ≡ₚ f :: l.
Proof.
  induction l as [|g l IH]; simpl; [done|].
  destruct (String.leb (fst g) (fst f)); [done|]. rewrite IH. apply perm_swap.
Qed.

Lemma sorted_reverse_Permutation l : sorted_reverse l ≡ₚ l.
Proof.
  induction l as [|f l IH]; simpl; [done|].
  by rewrite insert_desc_Permutation, IH.
Qed.

Lemma leb_trans (a b c : string) :
  String.leb a b = true → String.leb b c = true → String.leb a c = true.
Proof.
  intros Hab Hbc. apply Is_true_true.
  apply Is_true_true in Hab, Hbc.
  change (String.le a c). by trans b.
Qed.

Lemma insert_desc_sorted f l :
  StronglySorted newer_first l → StronglySorted newer_first (insert_desc f l).
Proof.
  induction 1 as [|g l Hs IH Hg]; simpl.
  - repeat constructor.
  - destruct (String.leb (fst g) (fst f)) eqn:E.
    + constructor; [by constructor|]. constructor; [done|].
      eapply Forall_impl; [exact Hg|]. intros h Hh. unfold newer_first in *.
      by apply (leb_trans _ (fst g)).
    + constructor; [done|]. rewrite insert_desc_Permutation.
      constructor; [|done]. unfold newer_first.
      destruct (String.leb_total (fst f) (fst g)) as [?|?]; [done|congruence].
Qed.

(** [sorted(..., reverse=True)] puts the names in decreasing order. *)
Lemma sorted_reverse_sorted l : StronglySorted newer_first (sorted_reverse l).
Proof.
  induction l as [|f l IH]; simpl; [constructor|]. by apply insert_desc_sorted.
Qed.

(** The listing of a directory whose files are all listable: one summary
    for each file that decodes, newest first. *)
Lemma list_sessions_listable dir :
  Forall listable (glob_json "" dir) →
  ∃ files,
    files ≡ₚ glob_json "" dir
    ∧ StronglySorted newer_first files
    ∧ list_sessions_in dir = Return (omap summary_of_file files).
Proof.
  intros Hall. exists (sorted_reverse (glob_json "" dir)).
  split; [apply sorted_reverse_Permutation|].
  split; [apply sorted_reverse_sorted|].
  unfold list_sessions_in. rewrite list_sessions_loop_listable; [done|].
  by rewrite sorted_reverse_Permutation.
Qed.

(** A file that decodes to anything but an object ends the listing. *)
Lemma list_sessions_loop_aborts name text rest sessions v :
  json_loads text = Decoded v →
  (∀ d, v ≠ JDict d) →
  list_sessions_loop ((name, text) :: rest) sessions
  = Raise (AttributeError "object has no attribute 'get'").
Proof. intros E Hv. simpl. rewrite E. destruct v; try done. by destruct (Hv d). Qed.
End Properties.

(** ** More properties of the backend *)

Ltac unfold_monad :=
  unfold mbind, M_bind, mret, M_ret, gets, lift, raise, modify, try_except in *.

Section MoreProperties.
Context `{PyText} `{!Prompts}.

(** *** The tracker's snapshot *)

Lemma track_all_from cs t :
  call_count (track_all cs t) = call_count t + Z.of_nat (length cs)
  ∧ calls (track_all cs t) = calls t ++ map call_record cs.
Proof.
  revert t. induction cs as [|[[i o] l] cs IH]; intros t; simpl.
  - split; [lia | by rewrite app_nil_r].
  - destruct (IH (track t i o l)) as [-> ->]. simpl. split; [lia|].
    by rewrite <- app_assoc.
Qed.

Lemma sum_input_records cs :
  foldr Z.add 0 (map cr_input_tokens (map call_record cs)) = sum_input cs.
Proof. unfold sum_input. induction cs as [|c cs IH]; simpl; [done|]. by rewrite IH. Qed.

Lemma sum_output_records cs :
  foldr Z.add 0 (map cr_output_tokens (map call_record cs)) = sum_output cs.
Proof. unfold sum_output. induction cs as [|c cs IH]; simpl; [done|]. by rewrite IH. Qed.

(** X1. A tracker that started fresh is consistent with its own records:
    the call count is the number of records, the records are the calls in
    the order they were tracked, and each total is the sum of that column
    of the records. *)
Theorem tracker_snapshot_consistent (cs : list (Z * Z * string)) :
  let t := track_all cs TokenTracker_new in
  calls t = map call_record cs
  ∧ call_count t = Z.of_nat (length (calls t))
  ∧ total_input_tokens t = foldr Z.add 0 (map cr_input_tokens (calls t))
  ∧ total_output_tokens t = foldr Z.add 0 (map cr_output_tokens (calls t)).
Proof.
  intros t. unfold t.
  destruct (track_all_from cs TokenTracker_new) as [Hn Hc].
  destruct (track_all_totals cs TokenTracker_new) as [Hi Ho].
  simpl in *. rewrite Hc, Hn, Hi, Ho, length_map, sum_input_records, sum_output_records.
  auto.
Qed.

(** *** Fences *)

Lemma rstrip_app s t :
  PyStr.rstrip t = t → t ≠ "" → PyStr.rstrip (s +:+ t) = s +:+ t.
Proof.
  intros Ht Hne. induction s as [|c s IH]; [done|].
  rewrite PyStrFacts.app_cons. simpl. rewrite IH.
  destruct (s +:+ t) eqn:E; [|done].
  destruct s; [by rewrite PyStrFacts.app_nil_l in E | by rewrite PyStrFacts.app_cons in E].
Qed.

Lemma strip_fenced x : PyStr.strip ("```" +:+ x +:+ "```") = "```" +:+ x +:+ "```".
Proof.
  unfold PyStr.strip.
  change ("```" +:+ x +:+ "```") with (String "`" ("``" +:+ x +:+ "```")) at 1.
  cbn [PyStr.lstrip]. change (PyStr.is_space "`") with false. cbv iota.
  change (String "`" ("``" +:+ x +:+ "```")) with (("```" +:+ x) +:+ "```").
  rewrite rstrip_app; [by rewrite PyStrFacts.app_assoc | done | done].
Qed.

Lemma partition_char c a b :
  PyStr.all_chars (fun x => negb (Ascii.eqb x c)) a = true →
  PyStr.partition (String c "") (a +:+ String c b) = Some (a, b).
Proof.
  induction a as [|x a IH].
  - intros _. rewrite PyStrFacts.app_nil_l. simpl.
    destruct (ascii_dec c c); [by destruct b | done].
  - simpl. rewrite andb_true_iff. intros [Hx Ha].
    destruct (ascii_dec c x) as [->|_]; [by rewrite Ascii.eqb_refl in Hx|].
    by rewrite (IH Ha).
Qed.

Lemma rpartition_fence body :
  PyStr.rpartition "```" (body +:+ "```") = Some (body, "").
Proof.
  induction body as [|c body IH]; [done|].
  rewrite PyStrFacts.app_cons. simpl. by rewrite IH.
Qed.

(** *** The gateway, once the call goes out *)

Section Outgoing.
Variables (sp up : string) (tracker : nat) (label : string) (mt : Z).
Variables (w : World) (model : ModelConfig).
Hypothesis Hout : call_goes_out w tracker model.

Lemma call_claude_outgoing :
  _call_claude sp up tracker label mt w
  = ('(input_tokens, output_tokens, content) ←
       messages_create (request_of model sp up mt);
     tracker_track tracker input_tokens output_tokens label;;
     raw_text ← lift (py_index content 0);
     let cleaned := PyStr.strip raw_text in
     cleaned ←
       (if PyStr.startswith cleaned "```" then
          cleaned ← lift (py_index (PyStr.split1 cleaned NL) 1);
          cleaned ← lift (py_index (PyStr.rsplit1 cleaned "```") 0);
          mret (PyStr.strip cleaned)
        else mret cleaned);
     match json_loads cleaned with
     | Decoded v => mret v
     | JSONDecodeError msg => mret (parse_failure raw_text msg)
     end) w.
Proof.
  destruct Hout as (Hkey & Hmodel & Hbudget). apply String.eqb_neq in Hkey.
  unfold _call_claude, _get_client.
  unfold mbind at 1, M_bind at 1. rewrite Hkey.
  unfold mbind at 1, M_bind at 1, gets at 1.
  unfold mbind at 1, M_bind at 1, lift at 1. rewrite Hmodel.
  unfold mbind at 1, M_bind at 1, gets at 1. by rewrite Hbudget.
Qed.

(** X2. When the oracle fails, its exception leaves the gateway as it is:
    the request has been placed, and nothing is tracked. *)
Theorem transport_failure_propagates (e : exn) :
  oracle w (oracle_requests w) (request_of model sp up mt) = ReplyError e →
  _call_claude sp up tracker label mt w
  = (Raise e, set_oracle_requests (fun l => l ++ [request_of model sp up mt]) w).
Proof.
  intros Hreply. rewrite call_claude_outgoing.
  unfold messages_create. unfold_monad. by rewrite Hreply.
Qed.

(** X3. When the oracle answers, the usage of the call is tracked once,
    under the label of the call, whatever its message holds: also when
    the message has no text block or its text makes the parsing stage
    raise. *)
Theorem answered_call_is_tracked (i o : Z) (content : list string) :
  oracle w (oracle_requests w) (request_of model sp up mt)
  = ReplyMessage i o content →
  snd (_call_claude sp up tracker label mt w)
  = after_call w (request_of model sp up mt) tracker i o label.
Proof.
  intros Hreply. rewrite call_claude_outgoing.
  unfold messages_create, tracker_track. unfold_monad. rewrite Hreply. simpl.
  repeat (case_match; simplify_eq/=; try done).
Qed.

(** X4. A fenced payload is unwrapped: when the text is an opening fence
    with an optional language tag, a line break, a body and a closing
    fence, the gateway decodes the stripped body; a body that does not
    decode comes back as the tagged record, carrying the text as
    received, fences included. *)
Theorem fenced_payload_is_unwrapped (lang body : string) (i o : Z)
    (rest : list string) :
  PyStr.all_chars (fun c => negb (Ascii.eqb c (ascii_of_nat 10))) lang = true →
  oracle w (oracle_requests w) (request_of model sp up mt)
  = ReplyMessage i o (("```" +:+ lang +:+ NL +:+ body +:+ "```") :: rest) →
  fst (_call_claude sp up tracker label mt w)
  = match json_loads (PyStr.strip body) with
    | Decoded v => Return v
    | JSONDecodeError msg =>
        Return (parse_failure ("```" +:+ lang +:+ NL +:+ body +:+ "```") msg)
    end.
Proof.
  intros Hlang Hreply. rewrite call_claude_outgoing.
  unfold messages_create, tracker_track. unfold_monad. rewrite Hreply.
  cbn [fst snd py_index lookup list_lookup].
  replace ("```" +:+ lang +:+ NL +:+ body +:+ "```")
    with ("```" +:+ (lang +:+ NL +:+ body) +:+ "```")
    by by rewrite !PyStrFacts.app_assoc.
  rewrite strip_fenced.
  assert (PyStr.startswith ("```" +:+ (lang +:+ NL +:+ body) +:+ "```") "```" = true)
    as -> by apply PyStrFacts.prefix_app.
  assert (PyStr.split1 ("```" +:+ (lang +:+ NL +:+ body) +:+ "```") NL
          = ["```" +:+ lang; body +:+ "```"]) as ->.
  { unfold PyStr.split1.
    replace ("```" +:+ (lang +:+ NL +:+ body) +:+ "```")
      with (("```" +:+ lang) +:+ String (ascii_of_nat 10) (body +:+ "```"))
      by (rewrite !PyStrFacts.app_assoc; reflexivity).
    unfold NL. rewrite partition_char; [done|].
    by rewrite PyStrFacts.all_chars_app, Hlang. }
  cbn [py_index lookup list_lookup].
  unfold PyStr.rsplit1. rewrite rpartition_fence.
  cbn [py_index lookup list_lookup].
  by destruct (json_loads (PyStr.strip body)).
Qed.
End Outgoing.

(** *** What a call leaves behind *)

Lemma call_claude_worlds sp up tracker label mt w :
  let w' := snd (_call_claude sp up tracker label mt w) in
  w' = w
  ∨ (∃ rq, w' = set_oracle_requests (fun l => l ++ [rq]) w)
  ∨ (∃ rq i o, w' = after_call w rq tracker i o label).
Proof.
  unfold _call_claude, _get_client, messages_create, tracker_track, after_call.
  unfold_monad.
  repeat (case_match; simplify_eq/=; eauto 6).
Qed.

Lemma invoke_worlds op tracker w :
  let w' := snd (invoke op tracker w) in
  w' = w
  ∨ (∃ rq, w' = set_oracle_requests (fun l => l ++ [rq]) w)
  ∨ (∃ rq i o label, w' = after_call w rq tracker i o label).
Proof.
  assert (∀ sp up label mt w0,
    snd (_call_claude sp up tracker label mt w0) = w0
    ∨ (∃ rq, snd (_call_claude sp up tracker label mt w0)
             = set_oracle_requests (fun l => l ++ [rq]) w0)
    ∨ (∃ rq i o label0, snd (_call_claude sp up tracker label mt w0)
                        = after_call w0 rq tracker i o label0)) as Hc.
  { intros sp up label mt w0.
    destruct (call_claude_worlds sp up tracker label mt w0)
      as [?|[?|(rq & i & o & ?)]]; eauto 8. }
  destruct op; cbn [invoke].
  - unfold generate_scenario, mbind, M_bind, gets. apply Hc.
  - unfold generate_review. rewrite built_then_call.
    destruct (get_review_user_prompt _ _); [apply Hc | by left].
  - unfold generate_improvement_comparison. rewrite built_then_call.
    destruct (get_improvement_user_prompt _ _); [apply Hc | by left].
  - unfold review_checklist. rewrite built_then_call.
    destruct (get_checklist_review_prompt _ _ _); [apply Hc | by left].
  - unfold generate_quick_scenario. apply Hc.
  - unfold grade_quick_response. rewrite built_then_call.
    destruct (get_quick_grade_user_prompt _ _ _ _ _); [apply Hc | by left].
Qed.

(** X23. An operation places at most one request and charges at most
    one call, to its own tracker: after any of the six operations the
    trackers of the other references are as before, the log of requests is
    the log before with at most one request more, and the call count of
    the operation's tracker is as before or one more, the latter only
    when a request was placed. *)
Theorem operation_charges_its_own_tracker (op : Operation) (tracker : nat)
    (w : World) :
  let w' := snd (invoke op tracker w) in
  let count := fun v => call_count (tracker_at (trackers v) tracker) in
  (∀ other, other ≠ tracker → trackers w' !! other = trackers w !! other)
  ∧ (∃ placed,
       oracle_requests w' = oracle_requests w ++ placed
       ∧ (length placed <= 1)%nat
       ∧ (count w' = count w ∨ (count w' = count w + 1 ∧ length placed = 1%nat))).
Proof.
  intros w' count. unfold w', count.
  destruct (invoke_worlds op tracker w) as [->|[[rq ->]|(rq & i & o & label & ->)]].
  - split; [done|]. exists []. rewrite app_nil_r. simpl. auto.
  - split; [done|]. exists [rq]. simpl. auto.
  - split.
    + intros other Hne. simpl. by rewrite lookup_insert_ne.
    + exists [rq]. simpl. split; [done|]. split; [done|]. right. split; [|done].
      unfold tracker_at at 1. by rewrite lookup_insert_eq.
Qed.

(** *** The gateway, before the call goes out *)

Lemma call_claude_without_key sp up tracker label mt w :
  api_key w = "" →
  _call_claude sp up tracker label mt w = (Raise (ValueError api_key_message), w).
Proof.
  intros Hkey. unfold _call_claude, _get_client. unfold_monad. by rewrite Hkey.
Qed.

Lemma call_claude_without_model sp up tracker label mt w e :
  api_key w ≠ "" →
  config_model (app_config w) = Raise e →
  _call_claude sp up tracker label mt w = (Raise e, w).
Proof.
  intros Hkey Hm. apply String.eqb_neq in Hkey.
  unfold _call_claude, _get_client. unfold_monad. by rewrite Hkey, Hm.
Qed.

(** An operation whose request builds fails as the gateway does. *)
Lemma invoke_refused (op : Operation) (tracker : nat) (w : World) (e : exn) :
  (∀ sp up label mt, _call_claude sp up tracker label mt w = (Raise e, w)) →
  request_builds op →
  invoke op tracker w = (Raise e, w).
Proof.
  intros Hc Hb. destruct op; cbn [invoke request_builds] in *.
  - unfold generate_scenario, mbind, M_bind, gets. apply Hc.
  - unfold generate_review. rewrite built_then_call.
    destruct (get_review_user_prompt _ _); [apply Hc | done].
  - unfold generate_improvement_comparison. rewrite built_then_call.
    destruct (get_improvement_user_prompt _ _); [apply Hc | done].
  - unfold review_checklist. rewrite built_then_call.
    destruct (get_checklist_review_prompt _ _ _); [apply Hc | done].
  - unfold generate_quick_scenario. apply Hc.
  - unfold grade_quick_response. rewrite built_then_call.
    destruct (get_quick_grade_user_prompt _ _ _ _ _); [apply Hc | done].
Qed.

(** X5. Configuration errors come first and cost nothing.  For each of
    the six operations whose request builds: without an API key the
    operation raises the key error, and with a key but a model key that is
    not in the table it raises the [KeyError] of the lookup; in both cases
    no request is placed and the world is as before, whatever the state of
    the budget. *)
Theorem configuration_errors_come_first (op : Operation) (tracker : nat) (w : World) :
  request_builds op →
  (api_key w = "" →
   invoke op tracker w = (Raise (ValueError api_key_message), w))
  ∧ (api_key w ≠ "" →
     dict_get (model_key (app_config w)) MODELS = None →
     invoke op tracker w = (Raise (KeyError (model_key (app_config w))), w)).
Proof.
  intros Hb. split.
  - intros Hkey. apply invoke_refused; [|done].
    intros. by apply call_claude_without_key.
  - intros Hkey Hm. apply invoke_refused; [|done].
    intros. apply call_claude_without_model; [done|].
    unfold config_model. by rewrite Hm.
Qed.

(** *** The store of sessions *)

Lemma app_inj_r s s' t : s +:+ t = s' +:+ t → s = s'.
Proof.
  revert s'. induction s as [|c s IH]; intros [|c' s'] E.
  - done.
  - apply (f_equal String.length) in E.
    rewrite PyStrFacts.app_nil_l, PyStrFacts.app_cons in E. simpl in E.
    rewrite PyStrFacts.app_length in E. lia.
  - apply (f_equal String.length) in E.
    rewrite PyStrFacts.app_nil_l, PyStrFacts.app_cons in E. simpl in E.
    rewrite PyStrFacts.app_length in E. lia.
  - rewrite !PyStrFacts.app_cons in E. injection E as -> E. by rewrite (IH _ E).
Qed.


Lemma get_past_summaries_loop_summarizable limit files summaries :
  Forall summarizable files →
  get_past_summaries_loop limit files summaries
  = Return (summaries
            ++ take (Z.to_nat limit - length summaries)
                 (omap past_summary_of_file files)).
Proof.
  intros Hall. revert summaries.
  induction Hall as [|[name text] files Hf _ IH]; intros summaries; simpl.
  - by rewrite take_nil, app_nil_r.
  - destruct (Z.of_nat (length summaries) >=? limit) eqn:Hfull.
    + replace (Z.to_nat limit - length summaries)%nat with 0%nat by lia.
      by rewrite take_0, app_nil_r.
    + unfold past_summary_of_file at 1. unfold summarizable in Hf. simpl in *.
      destruct (json_loads text) as [data|msg]; [|apply IH].
      specialize (Hf data eq_refl).
      destruct (past_summary name data) as [[entry|]|e]; [| apply IH | done].
      rewrite IH, length_app. simpl.
      replace (Z.to_nat limit - length summaries)%nat
        with (S (Z.to_nat limit - (length summaries + 1)))%nat by lia.
      simpl. by rewrite <- app_assoc.
Qed.



Lemma list_quick_sessions_loop_objects files sessions :
  Forall object_or_corrupt files →
  list_quick_sessions_loop files sessions
  = Return (sessions ++ omap quick_summary_of_file files).
Proof.
  intros Hall. revert sessions.
  induction Hall as [|[name text] files Hf _ IH]; intros sessions; simpl.
  - by rewrite app_nil_r.
  - unfold quick_summary_of_file at 1. unfold object_or_corrupt in Hf. simpl in *.
    destruct (json_loads text) as [data|msg]; [|apply IH].
    destruct (Hf data eq_refl) as [d ->]. simpl.
    rewrite IH. by rewrite <- app_assoc.
Qed.



(** *** Notes and review *)

(** X11. A submit touches one entry: for an unknown session it fails
    with the 404 error before the step is looked at and changes nothing;
    in every case the other sessions, both directories, the quick table,
    the trackers and the log of requests are as before, and the entry of
    the session, when there is one after, keeps the scenario and the
    tracker it had. *)
Theorem submit_notes_frame (w : World) (session_id : string)
    (request : SubmitNotesRequest) :
  let w' := snd (submit_notes session_id request w) in
  (active_sessions w !! session_id = None →
   submit_notes session_id request w
   = (Raise (HTTPException 404 "Session not found"), w))
  ∧ (∀ other, other ≠ session_id →
       active_sessions w' !! other = active_sessions w !! other)
  ∧ sessions_dir w' = sessions_dir w
  ∧ quick_sessions_dir w' = quick_sessions_dir w
  ∧ active_quick_sessions w' = active_quick_sessions w
  ∧ trackers w' = trackers w
  ∧ oracle_requests w' = oracle_requests w
  ∧ (∀ session session',
       active_sessions w !! session_id = Some session →
       active_sessions w' !! session_id = Some session' →
       s_scenario session' = s_scenario session
       ∧ s_tracker session' = s_tracker session
       ∧ s_session_id session' = s_session_id session).
Proof.
  intros w'. unfold w', submit_notes. unfold_monad.
  destruct (active_sessions w !! session_id) as [session|] eqn:Hs; [|done].
  destruct (is_valid_step (sn_step request)); simpl.
  - split; [done|]. split; [intros other Hne; by rewrite !lookup_insert_ne|].
    repeat (split; [done|]).
    intros s0 s' [= <-]. rewrite lookup_insert_eq. by intros [= <-].
  - split; [done|]. repeat (split; [done|]).
    intros s0 s' [= <-]. rewrite Hs. by intros [= <-].
Qed.

Lemma finish_review_cases session_id session feedback improvement w0 w :
  active_sessions w0 !! session_id = Some session →
  stores w = stores w0 →
  (∃ e,
     (token_usage ← token_usage_of (s_tracker session);
      save_session session_id
        (session_record session feedback improvement token_usage);;
      del_active_session session_id;;
      token_usage ← token_usage_of (s_tracker session);
      mret (JDict [("feedback", feedback);
                   ("improvement", improvement);
                   ("token_usage", token_usage)])) w = (Raise e, w))
  ∨ (∃ model,
       config_model (app_config w0) = Return model
       ∧ (token_usage ← token_usage_of (s_tracker session);
          save_session session_id
            (session_record session feedback improvement token_usage);;
          del_active_session session_id;;
          token_usage ← token_usage_of (s_tracker session);
          mret (JDict [("feedback", feedback);
                       ("improvement", improvement);
                       ("token_usage", token_usage)])) w
         = finalized session_id session feedback improvement model w).
Proof.
  intros Hs Hst. destruct (config_model (app_config w0)) as [model|e] eqn:Hm.
  - right. exists model. split; [done|]. by apply (finish_review _ _ _ _ _ w0).
  - left. exists e. apply stores_inv in Hst as (Hc & _).
    unfold token_usage_of. unfold_monad. by rewrite Hc, Hm.
Qed.

(** The outcomes of a review of an active session: it raises, or it
    finalizes; the gateway calls it made have left the stores alone. *)
Lemma review_session_cases w session_id session :
  active_sessions w !! session_id = Some session →
  ∃ w2,
    stores w2 = stores w
    ∧ ((∃ e, review_session session_id w = (Raise e, w2))
       ∨ (∃ feedback improvement model,
            config_model (app_config w) = Return model
            ∧ review_session session_id w
              = finalized session_id session feedback improvement model w2)).
Proof.
  intros Hs.
  pose proof (generate_review_stores (s_scenario session) (s_user_responses session)
                (s_tracker session) w) as Hst.
  set (P := fun (out : result json * World) (w2 : World) =>
    (∃ e, out = (Raise e, w2))
    ∨ (∃ feedback improvement model,
         config_model (app_config w) = Return model
         ∧ out = finalized session_id session feedback improvement model w2)).
  change (∃ w2, stores w2 = stores w ∧ P (review_session session_id w) w2).
  unfold review_session.
  unfold mbind at 1, M_bind at 1, gets at 1. rewrite Hs.
  unfold mbind at 1, M_bind at 1, try_except at 1.
  destruct (generate_review _ _ _ w) as [[feedback|e] w1] eqn:Hg; simpl in Hst.
  2:{ exists w1. split; [done|]. left. by eexists. }
  unfold mbind at 1, M_bind at 1, get_past_summaries at 1.
  destruct (get_past_summaries_loop _ _ _) as [past|e].
  2:{ exists w1. split; [done|]. left. by eexists. }
  assert (Hskip : ∀ improvement w2,
    stores w2 = stores w →
    ∃ w3,
      stores w3 = stores w
      ∧ P ((token_usage ← token_usage_of (s_tracker session);
            save_session session_id
              (session_record session feedback improvement token_usage);;
            del_active_session session_id;;
            token_usage ← token_usage_of (s_tracker session);
            mret (JDict [("feedback", feedback);
                         ("improvement", improvement);
                         ("token_usage", token_usage)])) w2) w3).
  { intros improvement w2 Hst2. exists w2. split; [done|].
    destruct (finish_review_cases session_id session feedback improvement w w2 Hs Hst2)
      as [[e He]|(model & Hm & Hf)].
    - left. by exists e.
    - right. by exists feedback, improvement, model. }
  unfold mbind at 1, M_bind at 1.
  destruct past as [|p past].
  { exact (Hskip JNull w1 Hst). }
  unfold mbind at 1, M_bind at 1, lift at 1.
  destruct (py_contains "error" feedback) as [[|]|e].
  - exact (Hskip JNull w1 Hst).
  - unfold mret at 1, M_ret at 1. simpl negb. cbv iota.
    unfold mbind at 1, M_bind at 1, try_except at 1.
    pose proof (generate_improvement_comparison_stores (p :: past) feedback
                  (s_tracker session) w1) as Hst2.
    destruct (generate_improvement_comparison _ _ _ w1) as [[v|e] w2];
      simpl in Hst2; rewrite Hst in Hst2.
    + exact (Hskip v w2 Hst2).
    + exact (Hskip JNull w2 Hst2).
  - exists w1. split; [done|]. left. by eexists.
Qed.


(** X13. A reviewed session is closed: once a review of an active
    session has succeeded, its record is on disk and every endpoint that
    works on an active session answers 404 for its id and changes
    nothing: submit, review, document, data, checklist review and cost. *)
Theorem reviewed_session_is_closed (w : World) (session_id : string)
    (session : Session) :
  active_sessions w !! session_id = Some session →
  is_raise (fst (review_session session_id w)) = false →
  let w' := snd (review_session session_id w) in
  let not_found := Raise (HTTPException 404 "Session not found") in
  is_Some (sessions_dir w' !! (session_id +:+ ".json"))
  ∧ (∀ request, submit_notes session_id request w' = (not_found, w'))
  ∧ review_session session_id w' = (not_found, w')
  ∧ (∀ doc_num, get_document session_id doc_num w' = (not_found, w'))
  ∧ get_data session_id w' = (not_found, w')
  ∧ (∀ request, review_checklist_endpoint session_id request w' = (not_found, w'))
  ∧ get_cost session_id w'
    = (Raise (HTTPException 404 "Session not found (may be completed)"), w').
Proof.
  intros Hs Hok w' not_found. unfold w', not_found. clear w' not_found.
  destruct (review_session_cases w session_id session Hs)
    as (w2 & _ & [[e He]|(feedback & improvement & model & _ & He)]);
    rewrite He in Hok |- *; [done|].
  destruct (finalized_persisted session_id session feedback improvement model w2)
    as (_ & Hfile & Hgone & _).
  split; [rewrite Hfile; by eexists|].
  unfold submit_notes, review_session, get_document, get_data,
    review_checklist_endpoint, get_cost. unfold_monad.
  by rewrite Hgone.
Qed.

Lemma dict_get_responses_json k (d : list (string * string)) :
  match responses_json d with
  | JDict notes => dict_get k notes = JStr <$> dict_get k d
  | _ => False
  end.
Proof.
  simpl. induction d as [|[k' v] d IH]; simpl; [done|].
  by destruct (String.eqb k' k).
Qed.

Lemma dict_get_times_json k (d : list (string * Z)) :
  match times_json d with
  | JDict times => dict_get k times = JInt <$> dict_get k d
  | _ => False
  end.
Proof.
  simpl. induction d as [|[k' v] d IH]; simpl; [done|].
  by destruct (String.eqb k' k).
Qed.

(** X14. The notes reach the record: after a submit with a recognized
    step, a review of the session that succeeds writes a record whose
    [user_responses] hold the submitted content under the step, whose
    [time_used] hold the submitted time under the step, and whose scenario
    is the scenario of the session. *)
Theorem notes_reach_the_record (w : World) (session_id : string)
    (session : Session) (request : SubmitNotesRequest) :
  active_sessions w !! session_id = Some session →
  sn_step request ∈ valid_steps →
  let w1 := snd (submit_notes session_id request w) in
  is_raise (fst (review_session session_id w1)) = false →
  ∃ record notes times,
    sessions_dir (snd (review_session session_id w1)) !! (session_id +:+ ".json")
    = Some (json_dumps record)
    ∧ has_member "user_responses" (JDict notes) record
    ∧ dict_get (sn_step request) notes = Some (JStr (sn_content request))
    ∧ has_member "time_used" (JDict times) record
    ∧ dict_get (sn_step request) times = Some (JInt (sn_time_used request))
    ∧ has_member "scenario" (s_scenario session) record.
Proof.
  intros Hs Hv w1. unfold w1. clear w1. rewrite <- is_valid_step_spec in Hv.
  rewrite (submit_notes_valid w session_id session request Hs Hv). simpl.
  set (session' := with_time_used
                     (with_response session (sn_step request) (sn_content request))
                     (sn_step request) (sn_time_used request)).
  set (w1 := set_active_sessions <[session_id := session']> w).
  assert (active_sessions w1 !! session_id = Some session') as Hs'
    by apply lookup_insert_eq.
  intros Hok.
  destruct (review_session_cases w1 session_id session' Hs')
    as (w2 & _ & [[e He]|(feedback & improvement & model & _ & He)]);
    rewrite He in Hok |- *; [done|].
  destruct (finalized_persisted session_id session' feedback improvement model w2)
    as (_ & Hfile & _).
  eexists _, _, _. split; [exact Hfile|].
  split; [reflexivity|]. split.
  { pose proof (dict_get_responses_json (sn_step request)
                  (s_user_responses session')) as Hn.
    simpl in Hn. simpl. rewrite Hn. by rewrite dict_get_set_eq. }
  split; [reflexivity|]. split; [|reflexivity].
  pose proof (dict_get_times_json (sn_step request) (s_time_used session')) as Hn.
  simpl in Hn. simpl. rewrite Hn. by rewrite dict_get_set_eq.
Qed.

(** X15. A listing that fails takes the review with it: when the review
    call has returned and the listing of the past summaries raises (a file
    of the directory decodes to something other than an object), the
    handler fails with that exception as it is, after the call has been
    made and tracked; the session stays active and nothing is written. *)
Theorem review_fails_when_summaries_fail (w : World) (session_id : string)
    (session : Session) (feedback : json) (w1 : World) (e : exn) :
  active_sessions w !! session_id = Some session →
  generate_review (s_scenario session) (s_user_responses session)
    (s_tracker session) w = (Return feedback, w1) →
  fst (get_past_summaries 5 w) = Raise e →
  review_session session_id w = (Raise e, w1)
  ∧ active_sessions w1 !! session_id = Some session
  ∧ sessions_dir w1 = sessions_dir w.
Proof.
  intros Hs Hg Hp.
  pose proof (generate_review_stores (s_scenario session) (s_user_responses session)
                (s_tracker session) w) as Hst.
  rewrite Hg in Hst. simpl in Hst. apply stores_inv in Hst as (_ & Ha & _ & Hd & _).
  split; [|split; [by rewrite Ha | done]].
  unfold review_session.
  unfold mbind at 1, M_bind at 1, gets at 1. rewrite Hs.
  unfold mbind at 1, M_bind at 1, try_except at 1. rewrite Hg.
  unfold mbind at 1, M_bind at 1, get_past_summaries at 1.
  unfold get_past_summaries in Hp. simpl in Hp. by rewrite Hd, Hp.
Qed.

(** *** Reading a session *)

(** X16. Documents are served by number, from one to three: the
    endpoint changes nothing; for an unknown session it answers 404,
    whatever the number; for an active session it answers 400 for a number
    below one or above three, and otherwise the document at that place of
    the scenario's list, counted from one (an [IndexError] when the list
    is shorter). *)
Theorem get_document_by_number (w : World) (session_id : string) (doc_num : Z) :
  snd (get_document session_id doc_num w) = w
  ∧ (active_sessions w !! session_id = None →
     fst (get_document session_id doc_num w)
     = Raise (HTTPException 404 "Session not found"))
  ∧ (∀ session,
       active_sessions w !! session_id = Some session →
       (doc_num < 1 ∨ 3 < doc_num →
        fst (get_document session_id doc_num w)
        = Raise (HTTPException 400 "doc_num must be 1, 2, or 3"))
       ∧ (1 <= doc_num <= 3 →
          ∀ docs,
            has_member "documents" (JList docs) (s_scenario session) →
            fst (get_document session_id doc_num w)
            = match docs !! Z.to_nat (doc_num - 1) with
              | Some doc => Return (JDict [("document", doc)])
              | None => Raise (IndexError "list index out of range")
              end)).
Proof.
  unfold get_document. unfold_monad.
  destruct (active_sessions w !! session_id) as [session|] eqn:Hs.
  2:{ split; [done|]. split; [done|]. intros ? [=]. }
  split; [|split; [done|]].
  - destruct ((doc_num <? 1) || (doc_num >? 3)); [done|].
    destruct (py_item (s_scenario session) "documents") as [documents|]; [|done].
    by destruct (py_item_int documents (Z.to_nat (doc_num - 1))).
  - intros s0 [= <-]. split.
    + intros Hout.
      assert ((doc_num <? 1) || (doc_num >? 3) = true) as ->; [|done].
      apply orb_true_iff. destruct Hout; [left|right]; lia.
    + intros Hin docs Hdocs.
      assert ((doc_num <? 1) || (doc_num >? 3) = false) as ->
        by (apply orb_false_iff; lia).
      destruct (s_scenario session) as [| | | | | |d]; try done.
      simpl in Hdocs. simpl. rewrite Hdocs. simpl. unfold py_index.
      by destruct (docs !! Z.to_nat (doc_num - 1)).
Qed.

(** X17. A session is read from memory first, then from disk: the
    endpoint changes nothing; an active session is answered from the
    table, with the status [in_progress] and its whole scenario, and
    without feedback, whatever is on disk; otherwise the file of the id
    is read: no file, or a file holding an empty object, gives 404; a
    file holding an object with members is returned with the status
    [complete] set; a file that does not decode raises the decode
    error. *)
Theorem get_session_memory_then_disk (w : World) (session_id : string) :
  snd (get_session session_id w) = w
  ∧ (∀ session,
       active_sessions w !! session_id = Some session →
       ∃ d,
         fst (get_session session_id w) = Return (JDict d)
         ∧ dict_get "status" d = Some (JStr "in_progress")
         ∧ dict_get "scenario" d = Some (s_scenario session)
         ∧ dict_mem "feedback" d = false)
  ∧ (active_sessions w !! session_id = None →
     (sessions_dir w !! (session_id +:+ ".json") = None →
      fst (get_session session_id w)
      = Raise (HTTPException 404 "Session not found"))
     ∧ (∀ text,
          sessions_dir w !! (session_id +:+ ".json") = Some text →
          fst (get_session session_id w)
          = match json_loads text with
            | Decoded (JDict []) => Raise (HTTPException 404 "Session not found")
            | Decoded (JDict d) => Return (JDict (dict_set "status" (JStr "complete") d))
            | Decoded data =>
                if truthy data
                then Raise (TypeError "object does not support item assignment")
                else Raise (HTTPException 404 "Session not found")
            | JSONDecodeError msg => Raise (ValueError msg)
            end)).
Proof.
  unfold get_session, load_session. unfold_monad.
  destruct (active_sessions w !! session_id) as [session|] eqn:Hs.
  { split; [done|]. split; [|done].
    intros s0 [= <-]. by eexists. }
  split; [|split; [intros ? [=]|intros _; split]].
  - destruct (sessions_dir w !! (session_id +:+ ".json")) as [text|]; [|done].
    destruct (json_loads text) as [data|msg]; [|done].
    destruct (negb (truthy data)); [done|].
    by destruct (py_setitem data "status" (JStr "complete")).
  - by intros ->.
  - intros text ->.
    destruct (json_loads text) as [data|msg]; [|done].
    destruct data as [|b|n|x|str|l|d]; simpl; try done.
    + by destruct b.
    + by destruct (n =? 0).
    + by destruct (float_truth x).
    + by destruct (String.eqb str "").
    + by destruct l.
    + by destruct d.
Qed.

(** *** Starting a session *)

Lemma call_claude_returns_model sp up tracker label mt w v w1 :
  _call_claude sp up tracker label mt w = (Return v, w1) →
  ∃ model, config_model (app_config w) = Return model.
Proof.
  unfold _call_claude, _get_client. unfold_monad.
  destruct (String.eqb (api_key w) ""); [done|].
  destruct (config_model (app_config w)) as [model|e]; [by exists model | done].
Qed.

(** What a start does, step by step, once the id is allocated. *)
Lemma start_session_outcomes w id :
  fst (generate_session_id w) = Return id →
  let r := fresh (dom (trackers w)) in
  let run := generate_scenario r (set_trackers <[r := TokenTracker_new]> w) in
  stores (snd run) = stores w
  ∧ match fst run with
    | Raise e =>
        start_session w
        = (Raise (HTTPException 500 ("Failed to generate scenario: " +:+ exn_str e)),
           snd run)
    | Return scenario =>
        match py_contains "error" scenario with
        | Raise e => start_session w = (Raise e, snd run)
        | Return true => start_session w = (scenario_error scenario, snd run)
        | Return false =>
            ∃ model,
              config_model (app_config w) = Return model
              ∧ let w2 :=
                  set_active_sessions
                    <[id := started id scenario r model (snd run)]> (snd run) in
                start_session w = (start_answer id scenario r model w2, w2)
        end
    end.
Proof.
  intros Hid r run. unfold generate_session_id in Hid. simpl in Hid.
  pose proof (invoke_stores GenerateScenario r
                (set_trackers <[r := TokenTracker_new]> w)) as Hst.
  simpl in Hst. change (stores (snd run) = stores w) in Hst.
  split; [done|].
  remember (start_session w) as out eqn:Hout.
  unfold start_session in Hout.
  unfold mbind at 1, M_bind at 1, generate_session_id at 1 in Hout. rewrite Hid in Hout.
  unfold mbind at 1, M_bind at 1, new_tracker at 1 in Hout.
  unfold mbind at 1, M_bind at 1, try_except at 1 in Hout.
  fold r in Hout. fold run in Hout.
  destruct run as [[scenario|e] w1] eqn:Hg; simpl fst; simpl snd; cbv beta iota.
  2:{ by rewrite Hout. }
  unfold mbind at 1, M_bind at 1, lift at 1 in Hout.
  destruct (py_contains "error" scenario) as [[|]|e]; [| |by rewrite Hout].
  - rewrite Hout. unfold scenario_error. unfold_monad. unfold result_bind.
    destruct (py_get scenario "error" JNull); [|done].
    destruct (py_get scenario "raw_response" (JStr "")) as [raw|]; [|done].
    by destruct (py_slice_to raw 500).
  - destruct (call_claude_returns_model _ _ _ _ _ _ _ _ Hg) as [model Hm].
    simpl in Hst. apply stores_inv in Hst as (Hc & _).
    change (app_config (set_trackers _ w)) with (app_config w) in Hm.
    exists model. split; [done|].
    rewrite Hout. unfold start_answer, started. unfold_monad. rewrite Hc, Hm. simpl.
    rewrite Hc, Hm. unfold result_bind.
    destruct (py_item scenario "background"); [|done].
    by destruct (py_item scenario "request").
Qed.

Lemma scenario_error_raises scenario : is_raise (scenario_error scenario) = true.
Proof.
  unfold scenario_error, mbind, result_bind.
  destruct (py_get scenario "error" JNull); [|done].
  destruct (py_get scenario "raw_response" (JStr "")) as [raw|]; [|done].
  by destruct (py_slice_to raw 500).
Qed.

Lemma stores_today w w' : stores w' = stores w → today w' = today w.
Proof. unfold stores. intros E. by simplify_eq. Qed.


(** X19. A start registers the session before it builds its answer:
    with the id allocated and a scenario that is an object without the key
    [error], the session is in the table under the id, with the scenario,
    no notes, no times and the new tracker, and nothing is written to the
    directory; the start then answers with the id, the background and the
    request, or fails with the [KeyError] of the member the scenario lacks,
    the session registered all the same. *)
Theorem start_registers_before_it_answers (w : World) (id : string)
    (d : list (string * json)) :
  fst (generate_session_id w) = Return id →
  let r := fresh (dom (trackers w)) in
  let run := generate_scenario r (set_trackers <[r := TokenTracker_new]> w) in
  fst run = Return (JDict d) →
  dict_mem "error" d = false →
  (∃ session,
     active_sessions (snd (start_session w)) = <[id := session]> (active_sessions w)
     ∧ s_session_id session = id
     ∧ s_scenario session = JDict d
     ∧ s_user_responses session = []
     ∧ s_time_used session = []
     ∧ s_tracker session = r)
  ∧ sessions_dir (snd (start_session w)) = sessions_dir w
  ∧ (dict_get "background" d = None →
     fst (start_session w) = Raise (KeyError "background"))
  ∧ (∀ b, dict_get "background" d = Some b →
          dict_get "request" d = None →
          fst (start_session w) = Raise (KeyError "request"))
  ∧ (∀ b q, dict_get "background" d = Some b →
            dict_get "request" d = Some q →
            ∃ config cost,
              fst (start_session w)
              = Return (JDict [("session_id", JStr id);
                               ("background", b);
                               ("request", q);
                               ("config", config);
                               ("cost_so_far", cost)])).
Proof.
  intros Hid r run Hrun Herr.
  destruct (start_session_outcomes w id Hid) as [Hst Hcase].
  fold r in Hst, Hcase. fold run in Hst, Hcase.
  apply stores_inv in Hst as (_ & Ha & _ & Hd & _).
  rewrite Hrun in Hcase. simpl in Hcase. rewrite Herr in Hcase.
  destruct Hcase as (model & _ & Hcase). cbv zeta in Hcase. rewrite Hcase.
  simpl. rewrite Ha, Hd.
  split; [by eexists|]. split; [done|].
  unfold start_answer. simpl. unfold mbind, result_bind.
  split; [by intros ->|]. split; [by intros b -> ->|].
  intros b q -> ->. by eexists _, _.
Qed.

(** A start, with the id allocated: the day and the directory are as
    before, the table is as before except under the id, and an answer
    carries the id. *)
Lemma start_session_frame w id :
  fst (generate_session_id w) = Return id →
  today (snd (start_session w)) = today w
  ∧ sessions_dir (snd (start_session w)) = sessions_dir w
  ∧ (∀ other, other ≠ id →
       active_sessions (snd (start_session w)) !! other = active_sessions w !! other)
  ∧ (∀ v, fst (start_session w) = Return v →
       py_item v "session_id" = Return (JStr id)
       ∧ ∃ session,
           active_sessions (snd (start_session w)) !! id = Some session
           ∧ s_user_responses session = []
           ∧ s_tracker session = fresh (dom (trackers w))).
Proof.
  intros Hid.
  destruct (start_session_outcomes w id Hid) as [Hst Hcase]. cbv zeta in Hst, Hcase.
  pose proof (stores_today _ _ Hst) as Ht.
  apply stores_inv in Hst as (_ & Ha & _ & Hd & _).
  destruct (generate_scenario _ _) as [[scenario|e] w1]; simpl in *.
  2:{ rewrite Hcase. simpl. split; [done|]. split; [done|].
      split; [by intros; rewrite Ha | done]. }
  destruct (py_contains "error" scenario) as [[|]|e].
  - rewrite Hcase. simpl. split; [done|]. split; [done|].
    split; [by intros; rewrite Ha|].
    intros v Hv. pose proof (scenario_error_raises scenario) as Hr.
    by rewrite Hv in Hr.
  - destruct Hcase as (model & _ & ->). simpl.
    split; [done|]. split; [done|].
    split; [intros other Hne; by rewrite lookup_insert_ne, Ha|].
    intros v Hv. split.
    + unfold start_answer, mbind, result_bind in Hv.
      destruct (py_item scenario "background"); [|done].
      destruct (py_item scenario "request"); [|done].
      by injection Hv as <-.
    + eexists. by rewrite lookup_insert_eq.
  - rewrite Hcase. simpl. split; [done|]. split; [done|].
    split; [by intros; rewrite Ha | done].
Qed.

(** X20. Starts do not reserve their id: the id of a start is read off
    the directory, which a start does not write, so a second start made
    before the first session is reviewed is given the same id.  Its entry
    replaces the first in the table (no notes, a tracker of its own); the
    entries under the other ids are as before. *)
Theorem starts_share_the_next_id (w : World) (id : string) :
  fst (generate_session_id w) = Return id →
  let w1 := snd (start_session w) in
  let w2 := snd (start_session w1) in
  fst (generate_session_id w1) = Return id
  ∧ (∀ other, other ≠ id →
       active_sessions w2 !! other = active_sessions w !! other)
  ∧ (∀ v1 v2,
       fst (start_session w) = Return v1 →
       fst (start_session w1) = Return v2 →
       py_item v1 "session_id" = Return (JStr id)
       ∧ py_item v2 "session_id" = Return (JStr id)
       ∧ ∃ session,
           active_sessions w2 !! id = Some session
           ∧ s_user_responses session = []
           ∧ s_tracker session = fresh (dom (trackers w1))).
Proof.
  intros Hid w1 w2.
  destruct (start_session_frame w id Hid) as (Ht & Hd & Ha & Hv).
  assert (fst (generate_session_id w1) = Return id) as Hid1.
  { unfold generate_session_id in *. simpl in *. unfold w1. by rewrite Ht, Hd. }
  destruct (start_session_frame w1 id Hid1) as (_ & _ & Ha1 & Hv1).
  split; [done|]. split.
  - intros other Hne. unfold w2. by rewrite Ha1, Ha.
  - intros v1 v2 E1 E2. destruct (Hv v1 E1) as [? _]. destruct (Hv1 v2 E2) as [? ?].
    done.
Qed.

(** *** Quick practice and the checklist *)

Lemma duration_seconds_cases mode :
  match dict_get mode DURATION_SECONDS with
  | Some t => (mode = "2.5min" ∧ t = 150) ∨ (mode = "5min" ∧ t = 300)
              ∨ (mode = "10min" ∧ t = 600)
  | None => mode ∉ ["2.5min"; "5min"; "10min"]
  end.
Proof.
  unfold DURATION_SECONDS. cbn [dict_get].
  destruct (String.eqb_spec "2.5min" mode) as [<-|E1]; [by left|].
  destruct (String.eqb_spec "5min" mode) as [<-|E2]; [by right; left|].
  destruct (String.eqb_spec "10min" mode) as [<-|E3]; [by right; right|].
  rewrite !elem_of_cons, elem_of_nil. intros [?|[?|[?|[]]]]; congruence.
Qed.

(** X21. A quick start looks at the duration mode first: a mode other
    than the three known ones is refused with the 400 error and nothing
    changes (no id is allocated, no tracker made, no request placed); a
    quick start that succeeds answers with the seconds of its mode: 150,
    300 or 600. *)
Theorem quick_start_validates_mode (w : World) (request : QuickStartRequest) :
  (qst_duration_mode request ∉ ["2.5min"; "5min"; "10min"] →
   start_quick_session request w
   = (Raise (HTTPException 400 "Invalid duration mode"), w))
  ∧ (∀ v, fst (start_quick_session request w) = Return v →
       ∃ seconds,
         py_item v "timer_seconds" = Return (JInt seconds)
         ∧ ((qst_duration_mode request = "2.5min" ∧ seconds = 150)
            ∨ (qst_duration_mode request = "5min" ∧ seconds = 300)
            ∨ (qst_duration_mode request = "10min" ∧ seconds = 600))).
Proof.
  unfold start_quick_session, dict_mem.
  pose proof (duration_seconds_cases (qst_duration_mode request)) as Hc.
  destruct (dict_get (qst_duration_mode request) DURATION_SECONDS) as [t|];
    cbn [negb]; cbv beta iota.
  - split.
    + intros Hn. exfalso. apply Hn. rewrite !elem_of_cons.
      destruct Hc as [[-> _]|[[-> _]|[-> _]]]; auto.
    + intros v Hv. exists t. split; [|done].
      revert Hv. unfold generate_quick_session_id, new_tracker. unfold_monad.
      destruct (next_session_id ("quick_" +:+ today w) (quick_sessions_dir w));
        [|by simpl].
      destruct (generate_quick_scenario _ _ _ _) as [[scenario|e] w1]; [|by simpl].
      destruct (py_contains "error" scenario) as [[|]|e]; [| |by simpl].
      { by destruct (py_get scenario "error" JNull). }
      destruct (py_item scenario "question"); [|by simpl].
      destruct (py_item scenario "documents"); [|by simpl].
      simpl. by intros [= <-].
  - split; [done|]. by intros v.
Qed.

(** X22. A checklist review stores nothing: whatever its outcome, the
    configuration, both tables and both directories are as before (its
    feedback goes to the caller only); for an unknown session it answers
    404 and for a document number below one or above three it answers 400,
    in both cases before any request is placed. *)
Theorem checklist_review_stores_nothing (w : World) (session_id : string)
    (request : ChecklistReviewRequest) :
  stores (snd (review_checklist_endpoint session_id request w)) = stores w
  ∧ (active_sessions w !! session_id = None →
     review_checklist_endpoint session_id request w
     = (Raise (HTTPException 404 "Session not found"), w))
  ∧ (is_Some (active_sessions w !! session_id) →
     cr_doc_num request < 1 ∨ 3 < cr_doc_num request →
     review_checklist_endpoint session_id request w
     = (Raise (HTTPException 400 "doc_num must be 1, 2, or 3"), w)).
Proof.
  remember (review_checklist_endpoint session_id request w) as out eqn:Hout.
  unfold review_checklist_endpoint in Hout.
  unfold mbind at 1, M_bind at 1, gets at 1 in Hout.
  destruct (active_sessions w !! session_id) as [session|] eqn:Hs.
  2:{ subst out. split; [done|]. split; [done|]. by intros [? [=]]. }
  destruct ((cr_doc_num request <? 1) || (cr_doc_num request >? 3)) eqn:Hb.
  { subst out. by repeat split. }
  split; [|split; [done|]].
  2:{ intros _ Hn. apply orb_false_iff in Hb. lia. }
  unfold mbind at 1, M_bind at 1, lift at 1 in Hout.
  destruct (py_item (s_scenario session) "documents") as [documents|];
    [|by subst out].
  unfold mbind at 1, M_bind at 1, lift at 1 in Hout.
  destruct (py_item_int documents _) as [document|]; [|by subst out].
  unfold mbind at 1, M_bind at 1, lift at 1 in Hout.
  destruct (py_item (s_scenario session) "rubric") as [rubric|]; [|by subst out].
  unfold mbind at 1, M_bind at 1, lift at 1 in Hout.
  destruct (py_get rubric _ _) as [concepts|]; [|by subst out].
  unfold mbind at 1, M_bind at 1, try_except at 1 in Hout.
  pose proof (invoke_stores
                (ChecklistReview document (map row_model_dump (cr_checklist request))
                   concepts) (s_tracker session) w) as Hst.
  simpl in Hst.
  destruct (review_checklist _ _ _ _ w) as [[feedback|e] w1]; simpl in Hst;
    [|by subst out].
  revert Hout. unfold_monad.
  destruct (config_model (app_config w1)); by intros ->.
Qed.
End MoreProperties.

(** ** The properties on concrete worlds *)

Import Example.


Lemma estimate_cost_additive_witness :
  estimate_cost
    (track_all [(1200, 300, "review"); (800, 100, "improvement_comparison")]
       TokenTracker_new) opus
  = estimate_cost (tracker_of_totals 2000 400) opus.
Proof.
  apply (estimate_cost_additive
           [(1200, 300, "review"); (800, 100, "improvement_comparison")] opus).
Defined.

Lemma submit_notes_validation_witness :
  let w := world ∅ (says "{}") in
  submit_notes "2026-02-07_001"
    {| sn_step := "not_a_step"; sn_content := "x"; sn_time_used := 10 |} w
  = (Raise (HTTPException 400 (invalid_step_detail "not_a_step")), w)
  ∧ ∃ session' w',
      submit_notes "2026-02-07_001"
        {| sn_step := "doc1_notes"; sn_content := "flow 40, head 12";
           sn_time_used := 260 |} w
      = (Return (JDict [("status", JStr "saved"); ("step", JStr "doc1_notes")]), w')
      ∧ active_sessions w' !! "2026-02-07_001" = Some session'
      ∧ dict_get "doc1_notes" (s_user_responses session') = Some "flow 40, head 12".
Proof.
  intros w. split.
  - destruct (submit_notes_validation w "2026-02-07_001" session
                {| sn_step := "not_a_step"; sn_content := "x"; sn_time_used := 10 |})
      as (_ & Hbad & _); [reflexivity|].
    apply Hbad. simpl. rewrite <- is_valid_step_spec. discriminate.
  - destruct (submit_notes_validation w "2026-02-07_001" session
                {| sn_step := "doc1_notes"; sn_content := "flow 40, head 12";
                   sn_time_used := 260 |})
      as (_ & _ & Hgood); [reflexivity|].
    destruct Hgood as (session' & w' & Hrun & Hs' & Hr & _).
    + simpl. rewrite <- is_valid_step_spec. reflexivity.
    + exists session', w'. auto.
Defined.

Lemma quick_grade_error_atomicity_witness :
  (let w := world ∅ (says "not json") in
   ∃ w1,
     submit_quick_session "quick_2026-02-07_001" quick_request w
     = (Raise (HTTPException 500 "Grading parse error: Failed to parse JSON response"),
        w1)
     ∧ quick_sessions_dir w1 = ∅
     ∧ active_quick_sessions w1 !! "quick_2026-02-07_001" = Some quick_session)
  ∧ (let w := world ∅ (says "{}") in
     ∃ w1,
       grade_quick_session quick_session quick_request w = (Return (JDict []), w1)
       ∧ fst (submit_quick_session "quick_2026-02-07_001" quick_request w)
         = Return (JDict [("feedback", JDict [])])
       ∧ is_Some (quick_sessions_dir
                    (snd (submit_quick_session "quick_2026-02-07_001" quick_request w))
                    !! "quick_2026-02-07_001.json")).
Proof.
  split.
  - intros w.
    destruct (quick_grade_error_atomicity w "quick_2026-02-07_001" quick_session
                quick_request) as (Hbad & _); [reflexivity|].
    edestruct Hbad as (Hrun & Hst & Hs); [reflexivity | reflexivity |].
    eexists. split; [exact Hrun|]. split; [|exact Hs].
    apply stores_inv in Hst as (_ & _ & _ & _ & Hq). exact Hq.
  - intros w.
    destruct (quick_grade_error_atomicity w "quick_2026-02-07_001" quick_session
                quick_request) as (_ & Hok); [reflexivity|].
    destruct (Hok _ _ (surjective_pairing _)) as (feedback & w1 & Hg & _ & Hr & Hf & _);
      [right; reflexivity|].
    exists w1. split; [|split; [|exact Hf]].
    + rewrite Hg. f_equal. f_equal.
      assert (Return (JDict [("feedback", feedback)])
              = Return (JDict [("feedback", JDict [])])) as [= ->];
        [rewrite <- Hr|]; reflexivity.
    + reflexivity.
Defined.






(** C3, the failing input: the oracle answers with a bare fence.  The
    gateway raises [IndexError] at the parsing stage, after the usage has
    been tracked, instead of returning the tagged record. *)
Theorem call_claude_bare_fence_raises :
  let w := world ∅ (says "```") in
  fst (_call_claude REVIEW_SYSTEM_PROMPT "Evaluate the trainee's performance."
         0 "review" 4096 w)
  = Raise (IndexError "list index out of range")
  ∧ call_count
      (tracker_at
         (trackers (snd (_call_claude REVIEW_SYSTEM_PROMPT
                           "Evaluate the trainee's performance." 0 "review" 4096 w)))
         0) = 1.
Proof.
  intros w.
  rewrite (call_claude_fence_without_newline _ _ 0 "review" 4096 w opus 1200 300
             "```" []); [split; reflexivity | discriminate | reflexivity..].
Qed.

(** C5, the failing input: a directory with a graded record and a file
    holding a JSON array.  The listing raises [AttributeError] and returns
    no entry, instead of skipping the file and listing the record. *)
Theorem list_sessions_array_file_aborts :
  fst (list_sessions (world one_graded_one_array (says "{}")))
  = Raise (AttributeError "object has no attribute 'get'").
Proof. reflexivity. Qed.

(** Two records and a file that is not JSON: the listing has two entries,
    newest first. *)
Example list_sessions_two_of_three :
  ∃ newer older,
    fst (list_sessions (world two_records_one_corrupt (says "{}")))
    = Return [newer; older]
    ∧ py_get newer "session_id" JNull = Return (JStr "2026-02-06_001")
    ∧ py_get older "session_id" JNull = Return (JStr "2026-02-05_001").
Proof. eexists _, _. split; [reflexivity|]. split; reflexivity. Qed.

(** *** More properties on concrete worlds *)

(** The files of a concrete directory, one by one. *)
Ltac each_file :=
  match goal with
  | |- Forall _ ?l => let l' := eval vm_compute in l in change l with l'
  end;
  repeat (constructor;
          [let data := fresh "data" in
           let Hd := fresh "Hd" in
           intros data Hd; cbv -[exact_float] in Hd;
           first [discriminate Hd
                 | injection Hd as <-; first [reflexivity | eexists; reflexivity]] |]);
  constructor.

Lemma transport_failure_propagates_witness :
  let w := world ∅ fails in
  _call_claude REVIEW_SYSTEM_PROMPT "Evaluate." 0 "review" 4096 w
  = (Raise (APIError "Overloaded"),
     set_oracle_requests
       (fun l => l ++ [request_of opus REVIEW_SYSTEM_PROMPT "Evaluate." 4096]) w).
Proof.
  intros w.
  apply (transport_failure_propagates REVIEW_SYSTEM_PROMPT "Evaluate." 0 "review"
           4096 w opus).
  - split; [discriminate | split; reflexivity].
  - reflexivity.
Defined.

Lemma answered_call_is_tracked_witness :
  let w := world ∅ (says "{}") in
  let w' := snd (_call_claude REVIEW_SYSTEM_PROMPT "Evaluate." 0 "review" 4096 w) in
  w' = after_call w (request_of opus REVIEW_SYSTEM_PROMPT "Evaluate." 4096)
         0 1200 300 "review"
  ∧ call_count (tracker_at (trackers w') 0) = 1
  ∧ length (oracle_requests w') = 1%nat.
Proof.
  intros w w'. unfold w'.
  rewrite (answered_call_is_tracked REVIEW_SYSTEM_PROMPT "Evaluate." 0 "review"
             4096 w opus) with (i := 1200) (o := 300) (content := ["{}"]).
  - split; [reflexivity|]. split; reflexivity.
  - split; [discriminate | split; reflexivity].
  - reflexivity.
Defined.

Lemma fenced_payload_is_unwrapped_witness :
  let w := world ∅ (says fenced_empty_object) in
  fst (_call_claude REVIEW_SYSTEM_PROMPT "Evaluate." 0 "review" 4096 w)
  = Return (JDict []).
Proof.
  intros w.
  rewrite (fenced_payload_is_unwrapped REVIEW_SYSTEM_PROMPT "Evaluate." 0 "review"
             4096 w opus) with (lang := "json") (body := "{}" +:+ NL)
             (i := 1200) (o := 300) (rest := []).
  - reflexivity.
  - split; [discriminate | split; reflexivity].
  - reflexivity.
  - reflexivity.
Defined.

Lemma configuration_errors_come_first_witness :
  invoke GenerateScenario 0 keyless_world
  = (Raise (ValueError api_key_message), keyless_world)
  ∧ invoke (QuickScenario "5min" None) 0 unknown_model_world
    = (Raise (KeyError "gpt"), unknown_model_world).
Proof.
  split.
  - apply (configuration_errors_come_first GenerateScenario 0 keyless_world);
      [exact I | reflexivity].
  - apply (configuration_errors_come_first (QuickScenario "5min" None) 0
             unknown_model_world); [exact I | discriminate | reflexivity].
Defined.







Lemma reviewed_session_is_closed_witness :
  let w := world ∅ (says graded_feedback_text) in
  let w' := snd (review_session "2026-02-07_001" w) in
  review_session "2026-02-07_001" w'
  = (Raise (HTTPException 404 "Session not found"), w')
  ∧ get_cost "2026-02-07_001" w'
    = (Raise (HTTPException 404 "Session not found (may be completed)"), w').
Proof.
  intros w w'.
  destruct (reviewed_session_is_closed w "2026-02-07_001" session)
    as (_ & _ & Hreview & _ & _ & _ & Hcost); [reflexivity | reflexivity |].
  split; [exact Hreview | exact Hcost].
Defined.

Lemma notes_reach_the_record_witness :
  let w := world ∅ (says graded_feedback_text) in
  let w1 := snd (submit_notes "2026-02-07_001" doc2_request w) in
  ∃ record notes,
    sessions_dir (snd (review_session "2026-02-07_001" w1)) !! "2026-02-07_001.json"
    = Some (json_dumps record)
    ∧ has_member "user_responses" (JDict notes) record
    ∧ dict_get "doc2_notes" notes = Some (JStr "head 12 m").
Proof.
  intros w w1.
  destruct (notes_reach_the_record w "2026-02-07_001" session doc2_request)
    as (record & notes & times & Hfile & Hn & Hnote & _);
    [reflexivity | | reflexivity |].
  - rewrite <- is_valid_step_spec. reflexivity.
  - exists record, notes. split; [exact Hfile|]. split; [exact Hn | exact Hnote].
Defined.

Lemma review_fails_when_summaries_fail_witness :
  let w := world one_graded_one_array (says graded_feedback_text) in
  fst (review_session "2026-02-07_001" w)
  = Raise (AttributeError "object has no attribute 'get'")
  ∧ active_sessions (snd (review_session "2026-02-07_001" w)) !! "2026-02-07_001"
    = Some session
  ∧ length (oracle_requests (snd (review_session "2026-02-07_001" w))) = 1%nat.
Proof.
  intros w.
  edestruct (review_fails_when_summaries_fail w "2026-02-07_001" session)
    as (Hrun & Hs & _); [reflexivity | reflexivity | reflexivity |].
  rewrite Hrun. split; [reflexivity|]. split; [exact Hs | reflexivity].
Defined.


Lemma start_registers_before_it_answers_witness :
  let w := world third_saved (says "{}") in
  fst (start_session w) = Raise (KeyError "background")
  ∧ ∃ started_session,
      active_sessions (snd (start_session w))
      = <["2026-02-07_004" := started_session]> (active_sessions w)
      ∧ s_scenario started_session = JDict [].
Proof.
  intros w.
  destruct (start_registers_before_it_answers w "2026-02-07_004" [])
    as ((started_session & Ha & _ & Hsc & _) & _ & Hbg & _);
    [reflexivity | reflexivity | reflexivity |].
  split; [apply Hbg; reflexivity|].
  exists started_session. split; [exact Ha | exact Hsc].
Defined.

Lemma starts_share_the_next_id_witness :
  let w := world third_saved (says "{}") in
  let w1 := snd (start_session w) in
  let w2 := snd (start_session w1) in
  fst (generate_session_id w1) = Return "2026-02-07_004"
  ∧ active_sessions w2 !! "2026-02-07_001" = Some session.
Proof.
  intros w w1 w2.
  destruct (starts_share_the_next_id w "2026-02-07_004") as (Hid & Ha & _);
    [reflexivity|].
  split; [exact Hid|].
  unfold w2, w1. rewrite Ha; [reflexivity | discriminate].
Defined.
